(** * paramhandling: the parameter validator of [paramhandler.py]

    A shallow embedding of the three functions of [paramhandler.py]
    ([get_nparrays], [get_classes], [parcheck]) together with the part of
    Python and NumPy they rely on, and the properties of the validation
    contract proved about them.

    Scope of the Python / NumPy model.
    - Python floats are IEEE binary64 data ([spec_float] with precision 53
      and [emax] 1024); a float handed to the program is canonical
      ([valid_binary]).
    - Scaling factors range over [None], [bool], [int], [float] and [str]
      objects.
    - Array-likes ([Q], [y], [classes]) are scalars or nested Python lists
      (nested no deeper than NumPy's maximum number of dimensions) whose
      leaves are [None], [bool], [int] (of any size), [float], or a bare
      [object()] instance, which stands for data that is not a number.
      Strings are left out: whether NumPy accepts one as a float depends on
      parsing its text.  Inputs that are NumPy arrays already are left out
      as well.
    - NumPy follows the behaviour of releases 1.24 and later on a 64-bit
      platform: a ragged nested sequence is a [ValueError]; [None] becomes
      NaN in a float array; a Python [int] is an int64 when it fits, a
      uint64 when it fits that only, an object otherwise; [float] of an
      [int] beyond the float range is an [OverflowError]; [np.unique]
      keeps a single NaN.
    - Formatted holes of f-strings are kept symbolic (the object, type,
      number or dtype that is printed), not rendered to characters. *)

From Stdlib Require Import String ZArith List Bool Lia QArith Permutation
  Sorted SpecFloat.
Import ListNotations.
Local Open Scope string_scope.
Local Open Scope list_scope.
Local Open Scope Z_scope.
Set Warnings "-register-all".

(** ** Python objects *)

Definition float := spec_float.

Definition float_valid (x : float) : bool := valid_binary 53 1024 x.

(** The literals [0.0] and [1.0]. *)
Definition float_zero : float := S754_zero false.
Definition float_one : float := S754_finite false 4503599627370496 (-52).

(** The objects a scaling factor may be bound to. *)
Inductive pyobj : Type :=
| PyNone
| PyBool (b : bool)
| PyInt (n : Z)
| PyFloat (x : float)
| PyStr (s : string).

(** [type(x)] *)
Inductive pytype : Type :=
  NoneType | bool_t | int_t | float_t | str_t | object_t.

Definition type_of (v : pyobj) : pytype :=
  match v with
  | PyNone => NoneType
  | PyBool _ => bool_t
  | PyInt _ => int_t
  | PyFloat _ => float_t
  | PyStr _ => str_t
  end.

(** [isinstance(v, (float, int))]: [bool] is a subclass of [int]. *)
Definition isinstance_float_int (v : pyobj) : bool :=
  match v with
  | PyBool _ | PyInt _ | PyFloat _ => true
  | PyNone | PyStr _ => false
  end.

(** ** NumPy data types and failures *)

Inductive dtype : Type := bool_ | int64 | uint64 | float64 | object_.

(** [np.issubdtype(d, np.integer)]: NumPy's [bool_] is not an integer type. *)
Definition issubdtype_integer (d : dtype) : bool :=
  match d with
  | int64 | uint64 => true
  | bool_ | float64 | object_ => false
  end.

(** What a failing library call reports (the text of its exception). *)
Inductive failure : Type :=
| Inhomogeneous                      (* ragged nested sequence *)
| FloatArgument (t : pytype)         (* float() argument must be ... not t *)
| UnsizedLen                         (* len() of unsized object *)
| NotOrderable (op : string) (l r : pytype)
                                     (* op not supported between instances *)
| UnorderableElements                (* the same, of two array elements *)
| IntTooLarge                        (* int too large to convert to float *)
| TupleIndex.                        (* tuple index out of range *)

(** ** Exceptions and the error monad *)

Inductive exn_class : Type :=
  TypeError | ValueError | IndexError | OverflowError.

(** A piece of an f-string: literal text or a formatted hole. *)
Inductive frag : Type :=
| Lit (s : string)
| OfType (t : pytype)
| OfValue (v : pyobj)
| OfNat (n : nat)
| OfDtype (d : dtype)
| OfFailure (f : failure).

Record exn : Type := Exn { exn_kind : exn_class; exn_msg : list frag }.

Inductive result (A : Type) : Type :=
| Ok (a : A)
| Raise (e : exn).
Arguments Ok {A} a.
Arguments Raise {A} e.

Definition bind {A B : Type} (m : result A) (k : A -> result B) : result B :=
  match m with
  | Ok a => k a
  | Raise e => Raise e
  end.

Notation "x <- m ;; k" := (bind m (fun x => k))
  (at level 61, m at next level, right associativity).
Notation "' p <- m ;; k" := (bind m (fun x => match x with p => k end))
  (at level 61, p pattern, m at next level, right associativity).

(** [try: m except (TypeError, ValueError) as e: h e] *)
Definition try_except_type_value {A : Type} (m : result A)
    (h : exn -> result A) : result A :=
  match m with
  | Ok a => Ok a
  | Raise e =>
      match exn_kind e with
      | TypeError | ValueError => h e
      | IndexError | OverflowError => Raise e
      end
  end.

(** ** Comparison of a float with a Python number *)

(** Exact comparison of a float with an integer, as CPython performs it. *)
Definition float_compare_Z (x : float) (n : Z) : option comparison :=
  match x with
  | S754_nan => None
  | S754_infinity s => Some (if s then Lt else Gt)
  | S754_zero _ => Some (0 ?= n)
  | S754_finite s m e =>
      let sm := if s then Zneg m else Zpos m in
      Some match e with
           | Zneg p => sm ?= n * 2 ^ Zpos p
           | _ => sm * 2 ^ e ?= n
           end
  end.

Definition Z_of_bool (b : bool) : Z := if b then 1 else 0.

(** [c <= v] for a float [c]. *)
Definition float_le_obj (c : float) (v : pyobj) : result bool :=
  match v with
  | PyFloat x => Ok (SFleb c x)
  | PyInt n =>
      Ok match float_compare_Z c n with Some (Lt | Eq) => true | _ => false end
  | PyBool b =>
      Ok match float_compare_Z c (Z_of_bool b) with
         | Some (Lt | Eq) => true
         | _ => false
         end
  | PyNone | PyStr _ =>
      Raise (Exn TypeError [OfFailure (NotOrderable "<=" float_t (type_of v))])
  end.

(** [v <= c] for a float [c]. *)
Definition obj_le_float (v : pyobj) (c : float) : result bool :=
  match v with
  | PyFloat x => Ok (SFleb x c)
  | PyInt n =>
      Ok match float_compare_Z c n with Some (Gt | Eq) => true | _ => false end
  | PyBool b =>
      Ok match float_compare_Z c (Z_of_bool b) with
         | Some (Gt | Eq) => true
         | _ => false
         end
  | PyNone | PyStr _ =>
      Raise (Exn TypeError [OfFailure (NotOrderable "<=" (type_of v) float_t)])
  end.

(** The chained comparison [lo <= v <= hi]. *)
Definition chained_le (lo : float) (v : pyobj) (hi : float) : result bool :=
  b <- float_le_obj lo v ;;
  if b then obj_le_float v hi else Ok false.

(** ** Array-likes *)

Definition int64_min : Z := -9223372036854775808.
Definition int64_max : Z := 9223372036854775807.

Definition uint64_max : Z := 18446744073709551615.

(** The Python [int] fits NumPy's default integer type. *)
Definition fits_int64 (n : Z) : bool := (int64_min <=? n) && (n <=? int64_max).

(** The Python [int] is too large for an int64 and fits a uint64. *)
Definition fits_uint64_only (n : Z) : bool :=
  (int64_max <? n) && (n <=? uint64_max).

(** The leaves of an array-like. *)
Inductive scalar : Type :=
| NoneLeaf
| BoolLeaf (b : bool)
| IntLeaf (n : Z)
| FloatLeaf (x : float)
| ObjectLeaf (id : nat).   (* an [object()] instance and its identity *)

(** A scalar or a (nested) Python list. *)
Inductive arraylike : Type :=
| Item (s : scalar)
| Seq (items : list arraylike).

Definition scalar_type (s : scalar) : pytype :=
  match s with
  | NoneLeaf => NoneType
  | BoolLeaf _ => bool_t
  | IntLeaf _ => int_t
  | FloatLeaf _ => float_t
  | ObjectLeaf _ => object_t
  end.

(** ** NumPy arrays *)

(** The element buffer, in row-major order; its constructor is the dtype. *)
Inductive buffer : Type :=
| Bools (l : list bool)
| Ints (l : list Z)
| Floats (l : list float)
| Objects (l : list scalar).

Record ndarray : Type := NDArray { shape : list nat; elems : buffer }.

(** An integer buffer holds int64 values, or uint64 values when one of them
    is too large for an int64. *)
Definition buffer_dtype (b : buffer) : dtype :=
  match b with
  | Bools _ => bool_
  | Ints l => if forallb fits_int64 l then int64 else uint64
  | Floats _ => float64
  | Objects _ => object_
  end.

Definition buffer_size (b : buffer) : nat :=
  match b with
  | Bools l => length l
  | Ints l => length l
  | Floats l => length l
  | Objects l => length l
  end.

Definition dtype_of (a : ndarray) : dtype := buffer_dtype (elems a).
Definition ndim (a : ndarray) : nat := length (shape a).

(** [a.shape[i]] *)
Definition shape_at (a : ndarray) (i : nat) : result nat :=
  match nth_error (shape a) i with
  | Some n => Ok n
  | None => Raise (Exn IndexError [OfFailure TupleIndex])
  end.

(** [len(a)] *)
Definition len (a : ndarray) : result nat :=
  match shape a with
  | [] => Raise (Exn TypeError [OfFailure UnsizedLen])
  | n :: _ => Ok n
  end.

(** A one-dimensional array over a buffer. *)
Definition vector (b : buffer) : ndarray := NDArray [buffer_size b] b.

(** *** Construction from an array-like *)

Definition shape_eqb (s t : list nat) : bool :=
  if list_eq_dec Nat.eq_dec s t then true else false.

(** Shape discovery: every item of a list must have the same shape. *)
Fixpoint discover_shape (a : arraylike) : option (list nat) :=
  match a with
  | Item _ => Some []
  | Seq items =>
      match map discover_shape items with
      | [] => Some [0%nat]
      | None :: _ => None
      | Some s :: rest =>
          if forallb (fun r => match r with
                               | Some t => shape_eqb s t
                               | None => false
                               end) rest
          then Some (length items :: s)
          else None
      end
  end.

(** The leaves in row-major order. *)
Fixpoint leaves (a : arraylike) : list scalar :=
  match a with
  | Item s => [s]
  | Seq items => flat_map leaves items
  end.

Fixpoint traverse {A B : Type} (f : A -> option B) (l : list A)
    : option (list B) :=
  match l with
  | [] => Some []
  | a :: l' =>
      match f a, traverse f l' with
      | Some b, Some bs => Some (b :: bs)
      | _, _ => None
      end
  end.

(** [float(n)] for an integer: round to nearest, ties to even. *)
Definition float_of_Z (n : Z) : float := binary_normalize 53 1024 n 0 false.

Definition leaf_bool (s : scalar) : option bool :=
  match s with
  | BoolLeaf b => Some b
  | _ => None
  end.

(** The integer a Python integer stands for. *)
Definition leaf_int (s : scalar) : option Z :=
  match s with
  | BoolLeaf b => Some (Z_of_bool b)
  | IntLeaf n => Some n
  | _ => None
  end.

(** What a leaf is in an array of dtype int64, uint64, float64: a [bool]
    fits all three, an [int] is an int64 when it fits and a uint64 when it
    fits that only, and either is a float. *)
Definition leaf_int64 (s : scalar) : option Z :=
  match s with
  | BoolLeaf b => Some (Z_of_bool b)
  | IntLeaf n => if fits_int64 n then Some n else None
  | _ => None
  end.

Definition leaf_uint64 (s : scalar) : option Z :=
  match s with
  | BoolLeaf b => Some (Z_of_bool b)
  | IntLeaf n => if fits_uint64_only n then Some n else None
  | _ => None
  end.

Definition leaf_float (s : scalar) : option float :=
  match s with
  | BoolLeaf b => Some (float_of_Z (Z_of_bool b))
  | IntLeaf n =>
      if fits_int64 n || fits_uint64_only n then Some (float_of_Z n)
      else None
  | FloatLeaf x => Some x
  | NoneLeaf | ObjectLeaf _ => None
  end.

(** dtype inference: the smallest of bool, int64, uint64, float64, object
    that holds every leaf (int64 mixed with uint64 gives float64); an empty
    sequence gets the default dtype float64. *)
Definition infer_buffer (ls : list scalar) : buffer :=
  match ls with
  | [] => Floats []
  | _ =>
      match traverse leaf_bool ls with
      | Some bs => Bools bs
      | None =>
          match traverse leaf_int64 ls with
          | Some ns => Ints ns
          | None =>
              match traverse leaf_uint64 ls with
              | Some ns => Ints ns
              | None =>
                  match traverse leaf_float ls with
                  | Some xs => Floats xs
                  | None => Objects ls
                  end
              end
          end
      end
  end.

(** [float(n)] raises [OverflowError] when [n] rounds beyond the largest
    float. *)
Definition float_overflows (n : Z) : bool :=
  match float_of_Z n with
  | S754_infinity _ => true
  | _ => false
  end.

(** Storing a leaf in a float64 array: [None] is stored as NaN, a number as
    [float(s)], which overflows on a large [int]; anything else is rejected
    by [float]. *)
Definition float_of_leaf (s : scalar) : result float :=
  match s with
  | NoneLeaf => Ok S754_nan
  | BoolLeaf b => Ok (float_of_Z (Z_of_bool b))
  | IntLeaf n =>
      if float_overflows n
      then Raise (Exn OverflowError [OfFailure IntTooLarge])
      else Ok (float_of_Z n)
  | FloatLeaf x => Ok x
  | ObjectLeaf _ =>
      Raise (Exn TypeError [OfFailure (FloatArgument (scalar_type s))])
  end.

(** The leaves are stored left to right; the first failure is raised. *)
Fixpoint to_float64 (ls : list scalar) : result (list float) :=
  match ls with
  | [] => Ok []
  | s :: rest =>
      x <- float_of_leaf s ;;
      xs <- to_float64 rest ;;
      Ok (x :: xs)
  end.

(** [np.asanyarray(a)] *)
Definition asanyarray (a : arraylike) : result ndarray :=
  match discover_shape a with
  | None => Raise (Exn ValueError [OfFailure Inhomogeneous])
  | Some sh => Ok (NDArray sh (infer_buffer (leaves a)))
  end.

(** [np.asanyarray(a, dtype=np.float64)] *)
Definition asanyarray_float64 (a : arraylike) : result ndarray :=
  match discover_shape a with
  | None => Raise (Exn ValueError [OfFailure Inhomogeneous])
  | Some sh => xs <- to_float64 (leaves a) ;; Ok (NDArray sh (Floats xs))
  end.

(** *** Sorting and [np.unique] *)

Section SortUnique.
Context {A : Type}.
Variable ltb : A -> A -> bool.
Variable eqb : A -> A -> bool.

(** Stable insertion: [x] goes in front of the first element that is not
    smaller than it. *)
Fixpoint insert (x : A) (l : list A) : list A :=
  match l with
  | [] => [x]
  | y :: l' => if ltb y x then y :: insert x l' else x :: l
  end.

Fixpoint sort (l : list A) : list A :=
  match l with
  | [] => []
  | x :: l' => insert x (sort l')
  end.

(** The mask [aux[1:] != aux[:-1]]: an element is kept when it differs
    from its predecessor. *)
Fixpoint keep_changes (prev : A) (l : list A) : list A :=
  match l with
  | [] => []
  | y :: l' =>
      if eqb prev y then keep_changes y l' else y :: keep_changes y l'
  end.

Definition dedup (l : list A) : list A :=
  match l with
  | [] => []
  | x :: l' => x :: keep_changes x l'
  end.

Definition sort_unique (l : list A) : list A := dedup (sort l).
End SortUnique.

Definition bool_ltb (a b : bool) : bool := negb a && b.

Definition is_nan (x : float) : bool :=
  match x with
  | S754_nan => true
  | _ => false
  end.

(** NumPy's sorting order on floats: NaN comes last. *)
Definition float_sort_ltb (a b : float) : bool :=
  if is_nan a then false else if is_nan b then true else SFltb a b.

(** Equality used when collapsing a sorted float array: [==], and all NaNs
    count as one value. *)
Definition float_same (a b : float) : bool :=
  (is_nan a && is_nan b) || SFeqb a b.

(** Python's ordering of the numbers among the leaves ([None] for the
    unordered cases). *)
Definition scalar_compare (a b : scalar) : option comparison :=
  match a, b with
  | FloatLeaf x, FloatLeaf y => SFcompare x y
  | FloatLeaf x, _ =>
      match leaf_int b with
      | Some n => float_compare_Z x n
      | None => None
      end
  | _, FloatLeaf y =>
      match leaf_int a with
      | Some n => option_map CompOpp (float_compare_Z y n)
      | None => None
      end
  | _, _ =>
      match leaf_int a, leaf_int b with
      | Some m, Some n => Some (m ?= n)
      | _, _ => None
      end
  end.

Definition orderable (s : scalar) : bool :=
  match s with
  | NoneLeaf | ObjectLeaf _ => false
  | BoolLeaf _ | IntLeaf _ | FloatLeaf _ => true
  end.

(** [a < b] on objects: only numbers are orderable. *)
Definition py_lt (a b : scalar) : result bool :=
  if orderable a && orderable b
  then Ok match scalar_compare a b with Some Lt => true | _ => false end
  else Raise (Exn TypeError [OfFailure UnorderableElements]).

(** [a == b] on objects: numbers by value, [None] and [object()] instances
    by identity. *)
Definition py_eq (a b : scalar) : bool :=
  match a, b with
  | NoneLeaf, NoneLeaf => true
  | ObjectLeaf i, ObjectLeaf j => (i =? j)%nat
  | _, _ => match scalar_compare a b with Some Eq => true | _ => false end
  end.

(** Sorting an object array calls [<] of the elements, which may raise. *)
Fixpoint insert_obj (x : scalar) (l : list scalar) : result (list scalar) :=
  match l with
  | [] => Ok [x]
  | y :: l' =>
      b <- py_lt y x ;;
      if b then r <- insert_obj x l' ;; Ok (y :: r) else Ok (x :: l)
  end.

Fixpoint sort_obj (l : list scalar) : result (list scalar) :=
  match l with
  | [] => Ok []
  | x :: l' => s <- sort_obj l' ;; insert_obj x s
  end.

(** [np.unique(a)]: the sorted distinct elements of the flattened array.
    (The source also asks for the inverse indices and drops them.) *)
Definition np_unique (a : ndarray) : result ndarray :=
  match elems a with
  | Bools l => Ok (vector (Bools (sort_unique bool_ltb Bool.eqb l)))
  | Ints l => Ok (vector (Ints (sort_unique Z.ltb Z.eqb l)))
  | Floats l => Ok (vector (Floats (sort_unique float_sort_ltb float_same l)))
  | Objects l => s <- sort_obj l ;; Ok (vector (Objects (dedup py_eq s)))
  end.

(** ** The program: [paramhandler.py] *)

Definition get_nparrays (Q y : arraylike) : result (ndarray * ndarray) :=
  try_except_type_value
    (Q_arr <- asanyarray_float64 Q ;;
     y_arr <- asanyarray y ;;
     Ok (Q_arr, y_arr))
    (fun e =>
       Raise (Exn TypeError
                (Lit "Inputs Q and y must be convertible to NumPy arrays. Error: "
                 :: exn_msg e))).

(** The default [classes=None]. *)
Definition no_classes : arraylike := Item NoneLeaf.

(** [a is None] *)
Definition is_None (a : arraylike) : bool :=
  match a with
  | Item NoneLeaf => true
  | _ => false
  end.

Definition get_classes (y : ndarray) (classes : arraylike)
    : result (ndarray * nat) :=
  if negb (is_None classes) then
    unique_labels <- asanyarray classes ;;
    n_classes <- len unique_labels ;;
    Ok (unique_labels, n_classes)
  else
    unique_labels <- np_unique y ;;
    n_classes <- len unique_labels ;;
    Ok (unique_labels, n_classes).

Definition parcheck (Q y : arraylike) (factor_h factor_k : pyobj)
    (classes : arraylike) : result unit :=
  (* 1. Check factor types and ranges *)
  if negb (isinstance_float_int factor_h) then
    Raise (Exn TypeError [Lit "factor_h must be a float, but got ";
                          OfType (type_of factor_h); Lit "."])
  else if negb (isinstance_float_int factor_k) then
    Raise (Exn TypeError [Lit "factor_k must be a float, but got ";
                          OfType (type_of factor_k); Lit "."])
  else
  h_in_range <- chained_le float_zero factor_h float_one ;;
  if negb h_in_range then
    Raise (Exn ValueError
             [Lit "factor_h must be in the range [0.0, 1.0], but got ";
              OfValue factor_h; Lit "."])
  else
  k_in_range <- chained_le float_zero factor_k float_one ;;
  if negb k_in_range then
    Raise (Exn ValueError
             [Lit "factor_k must be in the range [0.0, 1.0], but got ";
              OfValue factor_k; Lit "."])
  else
  (* 2. Convert Q and y to NumPy arrays for consistent checking *)
  ' (Q_arr, y_arr) <- get_nparrays Q y ;;
  (* 3. Check dimensions *)
  if negb (ndim Q_arr =? 2)%nat then
    Raise (Exn ValueError [Lit "Q must be a 2D array, but has ";
                           OfNat (ndim Q_arr); Lit " dimensions."])
  else if negb (ndim y_arr =? 1)%nat then
    Raise (Exn ValueError [Lit "y must be a 1D array, but has ";
                           OfNat (ndim y_arr); Lit " dimensions."])
  else
  (* 4. Check shape consistency *)
  n_samples <- shape_at Q_arr 0 ;;
  n_labels <- shape_at y_arr 0 ;;
  if negb (n_samples =? n_labels)%nat then
    Raise (Exn ValueError
             [Lit "The number of samples in Q ("; OfNat n_samples;
              Lit ") does not match the number of labels in y (";
              OfNat n_labels; Lit ")."])
  else
  (* 5. Check label data type *)
  if negb (issubdtype_integer (dtype_of y_arr)) then
    Raise (Exn TypeError [Lit "Labels in y must be integers, but found type ";
                          OfDtype (dtype_of y_arr); Lit "."])
  else
  (* 6. Check class consistency *)
  n_features_q <- shape_at Q_arr 1 ;;
  ' (_, n_classes_y) <- get_classes y_arr classes ;;
  if negb (n_features_q =? n_classes_y)%nat then
    Raise (Exn ValueError
             [Lit "The number of columns in Q ("; OfNat n_features_q;
              Lit ") must match the number of unique classes derived from y/classes (";
              OfNat n_classes_y; Lit ")."])
  else Ok tt.

(** ** Notions of the specification *)

(** *** Scaling factors *)

(** The real number a finite float stands for: [(-1)^s * m * 2^e]. *)
Definition float_value (x : float) : option Q :=
  match x with
  | S754_zero _ => Some 0%Q
  | S754_finite s m e =>
      let sm := if s then Zneg m else Zpos m in
      Some match e with
           | Zneg p => Qmake sm (2 ^ p)%positive
           | _ => inject_Z (sm * 2 ^ e)
           end
  | S754_infinity _ | S754_nan => None
  end.

(** The real number a scaling factor stands for, when it is one. *)
Definition factor_value (v : pyobj) : option Q :=
  match v with
  | PyBool b => Some (inject_Z (Z_of_bool b))
  | PyInt n => Some (inject_Z n)
  | PyFloat x => float_value x
  | PyNone | PyStr _ => None
  end.

(** Python's real numbers: [int] (with its subtype [bool]) and [float]. *)
Definition real_number (v : pyobj) : Prop :=
  match v with
  | PyBool _ | PyInt _ | PyFloat _ => True
  | PyNone | PyStr _ => False
  end.

(** Floats that reach the program are canonical binary64 data. *)
Definition canonical (v : pyobj) : Prop :=
  match v with
  | PyFloat x => float_valid x = true
  | _ => True
  end.

Definition unit_interval (q : Q) : Prop := (0 <= q)%Q /\ (q <= 1)%Q.

(** The factor is a number of the closed interval [0, 1]. *)
Definition in_unit_interval (v : pyobj) : Prop :=
  exists q, factor_value v = Some q /\ unit_interval q.

(** The four errors of the factor checks. *)
Definition factor_type_error (name : string) (v : pyobj) : exn :=
  Exn TypeError
    [Lit (name ++ " must be a float, but got "); OfType (type_of v); Lit "."].

Definition factor_range_error (name : string) (v : pyobj) : exn :=
  Exn ValueError
    [Lit (name ++ " must be in the range [0.0, 1.0], but got ");
     OfValue v; Lit "."].


(** *** Arrays *)

(** [has_shape a s]: the array-like [a] is rectangular, of shape [s]. *)
Inductive has_shape : arraylike -> list nat -> Prop :=
| shape_item (s : scalar) : has_shape (Item s) []
| shape_empty : has_shape (Seq []) [0%nat]
| shape_seq (a : arraylike) (items : list arraylike) (s : list nat) :
    has_shape a s ->
    Forall (fun b => has_shape b s) items ->
    has_shape (Seq (a :: items)) (S (length items) :: s).

Definition rectangular (a : arraylike) : Prop := exists s, has_shape a s.



(** What NumPy stores in a float array: numbers within the range of the
    floats, and [None] as NaN. *)
Definition float_convertible (s : scalar) : Prop :=
  match s with
  | ObjectLeaf _ => False
  | IntLeaf n => float_overflows n = false
  | NoneLeaf | BoolLeaf _ | FloatLeaf _ => True
  end.

(** An [int] too large for a float. *)
Definition overflowing (s : scalar) : Prop :=
  match s with
  | IntLeaf n => float_overflows n = true
  | _ => False
  end.

(** The failure of [float] on such an [int]. *)
Definition overflow_failure : exn :=
  Exn OverflowError [OfFailure IntTooLarge].



(** The number of distinct labels. *)
Definition distinct_count (labels : list Z) : nat :=
  length (nodup Z.eq_dec labels).

(** The failures of array construction: a ragged sequence, a leaf that
    [float] rejects. *)
Definition ragged_failure : exn := Exn ValueError [OfFailure Inhomogeneous].
Definition float_failure : exn :=
  Exn TypeError [OfFailure (FloatArgument object_t)].

(** An error that reports a failed library call and nothing else. *)
Definition library_error (e : exn) : Prop :=
  exists f, exn_msg e = [OfFailure f].

(** The error [get_nparrays] makes of a conversion failure. *)
Definition conversion_error (inner : exn) : exn :=
  Exn TypeError
    (Lit "Inputs Q and y must be convertible to NumPy arrays. Error: "
     :: exn_msg inner).

Definition dimension_error (name expected : string) (n : nat) : exn :=
  Exn ValueError
    [Lit (name ++ " must be a " ++ expected ++ " array, but has ");
     OfNat n; Lit " dimensions."].

Definition sample_count_error (n_samples n_labels : nat) : exn :=
  Exn ValueError
    [Lit "The number of samples in Q ("; OfNat n_samples;
     Lit ") does not match the number of labels in y (";
     OfNat n_labels; Lit ")."].

Definition label_type_error (d : dtype) : exn :=
  Exn TypeError
    [Lit "Labels in y must be integers, but found type "; OfDtype d; Lit "."].

Definition class_count_error (n_features n_classes : nat) : exn :=
  Exn ValueError
    [Lit "The number of columns in Q ("; OfNat n_features;
     Lit ") must match the number of unique classes derived from y/classes (";
     OfNat n_classes; Lit ")."].

(** *** The order of the checks *)



Definition out_of_range (v : pyobj) : bool :=
  match factor_value v with
  | Some q => negb (Qle_bool 0 q && Qle_bool q 1)
  | None => true
  end.



(** The checks on the arrays alone: validation with factors that pass. *)
Definition check_arrays (Q y : arraylike) (classes : arraylike)
    : result unit :=
  parcheck Q y (PyInt 0) (PyInt 0) classes.

(** ** Sample inputs *)

Definition float_half : float := S754_finite false 4503599627370496 (-53).

Definition float_item (x : float) : arraylike := Item (FloatLeaf x).

Definition int_item (n : Z) : arraylike := Item (IntLeaf n).

(** A matrix with [m] rows of [n] entries [0.5]. *)
Definition Q_of_shape (m n : nat) : arraylike :=
  Seq (repeat (Seq (repeat (float_item float_half) n)) m).

(** [y = [0, 1, 2, 1]] *)
Definition y_0121 : arraylike :=
  Seq [int_item 0; int_item 1; int_item 2;
       int_item 1].

(** [classes = [0, 1, 2, 3]] *)
Definition classes_0123 : arraylike :=
  Seq [int_item 0; int_item 1; int_item 2;
       int_item 3].

(** [[1, 2, 3]], a one-dimensional list. *)
Definition list_123 : arraylike :=
  Seq [int_item 1; int_item 2; int_item 3].

(** [y = [0.0, 1.0]], floating-point labels. *)
Definition y_float : arraylike :=
  Seq [float_item float_zero; float_item float_one].

(** [y = [5, 7]], labels outside [[0, 1, 2]]. *)
Definition y_57 : arraylike := Seq [int_item 5; int_item 7].

Definition classes_012 : arraylike :=
  Seq [int_item 0; int_item 1; int_item 2].

(** [[[None]]], a matrix without a number. *)
Definition Q_none : arraylike := Seq [Seq [Item NoneLeaf]].


(** [[[10**400]]], a matrix with an [int] too large for a float. *)
Definition Q_huge : arraylike := Seq [Seq [int_item (10 ^ 400)]].

(** [[2**64]], a label too large for any integer dtype. *)
Definition y_huge : arraylike := Seq [int_item (2 ^ 64)].



(** [[[0.5], []]], a ragged matrix. *)
Definition Q_ragged : arraylike := Seq [Seq [float_item float_half]; Seq []].

(** ** Further notions *)

(** A flat Python list of scalars. *)
Definition flat_list (ls : list scalar) : arraylike := Seq (map Item ls).

Definition is_bool_leaf (s : scalar) : Prop :=
  match s with
  | BoolLeaf _ => True
  | _ => False
  end.

Definition is_int_leaf (s : scalar) : Prop :=
  match s with
  | IntLeaf _ => True
  | _ => False
  end.

Definition is_float_leaf (s : scalar) : Prop :=
  match s with
  | FloatLeaf _ => True
  | _ => False
  end.

(** A Python integer: an [int] or a [bool]. *)
Definition int_or_bool (s : scalar) : Prop :=
  match s with
  | BoolLeaf _ | IntLeaf _ => True
  | _ => False
  end.

(** An [int] among the labels is small when it fits an int64, large when
    it fits a uint64 only. *)
Definition small_label (s : scalar) : Prop :=
  match s with
  | IntLeaf n => fits_int64 n = true
  | _ => True
  end.

Definition large_label (s : scalar) : Prop :=
  match s with
  | IntLeaf n => fits_uint64_only n = true
  | _ => True
  end.

(** An [int] that fits neither. *)
Definition huge_label (s : scalar) : Prop :=
  match s with
  | IntLeaf n => n < int64_min \/ uint64_max < n
  | _ => False
  end.

(** The labels of a list are integral when every leaf is a Python integer,
    at least one is not a [bool], and the integers are all small or all
    large: NumPy then stores them in an integer array. *)
Definition integral_labels (ls : list scalar) : Prop :=
  Forall int_or_bool ls /\ Exists is_int_leaf ls /\
  (Forall small_label ls \/ Forall large_label ls).


(** The two kinds of error of the validation contract. *)
Definition type_or_value_error (e : exn) : Prop :=
  exn_kind e = TypeError \/ exn_kind e = ValueError.


(** Two buffers of the same dtype that hold the same elements, in some
    order. *)
Definition buffer_perm (b b' : buffer) : Prop :=
  match b, b' with
  | Bools l, Bools l' => Permutation l l'
  | Ints l, Ints l' => Permutation l l'
  | Floats l, Floats l' => Permutation l l'
  | Objects l, Objects l' => Permutation l l'
  | _, _ => False
  end.

(** * Properties *)

(** ** The range check on floats *)

Lemma some_inj {A : Type} (a b : A) : Some a = Some b -> a = b.
Proof. congruence. Qed.

Lemma digits2_pos_bounds (m : positive) :
  2 ^ (Zpos (digits2_pos m) - 1) <= Zpos m < 2 ^ Zpos (digits2_pos m).
Proof.
  induction m as [m IH | m IH |]; cbn [digits2_pos].
  - rewrite Pos2Z.inj_succ.
    replace (Z.succ (Zpos (digits2_pos m)) - 1)
      with (Z.succ (Zpos (digits2_pos m) - 1)) by lia.
    rewrite !Z.pow_succ_r by lia. lia.
  - rewrite Pos2Z.inj_succ.
    replace (Z.succ (Zpos (digits2_pos m)) - 1)
      with (Z.succ (Zpos (digits2_pos m) - 1)) by lia.
    rewrite !Z.pow_succ_r by lia. lia.
  - cbn. lia.
Qed.

(** A canonical binary64 mantissa has at most 53 bits, and exactly 53 unless
    the number is subnormal. *)
Lemma canonical_mantissa_bounds (m : positive) (e : Z) :
  canonical_mantissa 53 1024 m e = true ->
  Zpos m < 2 ^ 53 /\ (-1074 < e -> 2 ^ 52 <= Zpos m).
Proof.
  unfold canonical_mantissa, fexp, emin. intros H. apply Z.eqb_eq in H.
  pose proof (digits2_pos_bounds m) as [Hlo Hhi].
  assert (Hd : Zpos (digits2_pos m) <= 53) by lia.
  split.
  - eapply Z.lt_le_trans; [exact Hhi|]. apply Z.pow_le_mono_r; lia.
  - intros He. assert (Zpos (digits2_pos m) = 53) as Hd' by lia.
    rewrite Hd' in Hlo. exact Hlo.
Qed.

(** On canonical floats, [0.0 <= x <= 1.0] holds exactly when the number [x]
    stands for lies in the unit interval. *)
Lemma float_range_check (x : float) :
  float_valid x = true ->
  (SFleb float_zero x && SFleb x float_one = true <->
   exists q, float_value x = Some q /\ unit_interval q).
Proof.
  intros Hv. destruct x as [s | s | | s m e].
  - destruct s; cbn; split; intros _; try reflexivity;
      (exists 0%Q; split; [reflexivity | split; unfold Qle; cbn; lia]).
  - destruct s; cbn; split; try discriminate; intros (q & Hq & _); discriminate.
  - cbn; split; try discriminate; intros (q & Hq & _); discriminate.
  - cbn in Hv. unfold bounded in Hv. apply andb_true_iff in Hv as [Hc _].
    apply canonical_mantissa_bounds in Hc as [Hhi Hlo].
    destruct s.
    + split; [discriminate|]. intros (q & Hq & H0 & _).
      apply some_inj in Hq; subst q. exfalso.
      destruct e as [| p | p]; unfold Qle in H0; cbn [Qnum Qden inject_Z] in H0;
        try (assert (0 < 2 ^ Zpos p) by (apply Z.pow_pos_nonneg; lia)).
      all: nia.
    + unfold SFleb, float_zero, float_one, SFcompare.
      cbn [andb].
      destruct (Z.compare_spec e (-52)) as [He | He | He].
      * subst e. rewrite Pos.compare_cont_spec. cbn [Pos.switch_Eq float_value].
        change (2 ^ 52)%positive with 4503599627370496%positive.
        rewrite Pos2Z.inj_compare.
        destruct (Z.compare_spec (Zpos m) (Zpos 4503599627370496))
          as [Hm | Hm | Hm]; split; intros H; try discriminate;
          try reflexivity.
        -- eexists; split; [reflexivity|].
           split; unfold Qle; cbn [Qnum Qden]; lia.
        -- eexists; split; [reflexivity|].
           split; unfold Qle; cbn [Qnum Qden]; lia.
        -- destruct H as (q & Hq & _ & H1). apply some_inj in Hq; subst q.
           unfold Qle in H1; cbn [Qnum Qden] in H1. lia.
      * split; intros _; [|reflexivity].
        eexists; split; [reflexivity|].
        destruct e as [| p | p]; try lia.
        split; unfold Qle; cbn; try lia.
        rewrite Pos2Z.inj_pow.
        assert (2 ^ 53 <= 2 ^ Zpos p) by (apply Z.pow_le_mono_r; lia). lia.
      * split; [discriminate|]. intros (q & Hq & _ & H1).
        apply some_inj in Hq; subst q.
        exfalso. specialize (Hlo ltac:(lia)).
        destruct e as [| p | p].
        -- unfold Qle in H1; cbn in H1. lia.
        -- unfold Qle in H1. cbn [Qnum Qden inject_Z] in H1.
           assert (0 < 2 ^ Zpos p) by (apply Z.pow_pos_nonneg; lia).
           nia.
        -- unfold Qle in H1; cbn [Qnum Qden] in H1. rewrite Pos2Z.inj_pow in H1.
           assert (2 ^ Zpos p <= 2 ^ 51) by (apply Z.pow_le_mono_r; lia). lia.
Qed.

Lemma int_range_check (n : Z) :
  chained_le float_zero (PyInt n) float_one = Ok ((0 <=? n) && (n <=? 1)).
Proof.
  unfold chained_le, float_le_obj, obj_le_float, float_compare_Z, float_zero,
    float_one, bind.
  destruct (Z.compare_spec 0 n) as [H | H | H];
    destruct (Z.compare_spec (Z.pos 4503599627370496) (n * 2 ^ Z.pos 52))
      as [H' | H' | H'];
    change (2 ^ Z.pos 52) with 4503599627370496 in H';
    f_equal; symmetry;
    first [ apply andb_true_iff; split; [apply Z.leb_le | apply Z.leb_le]; lia
          | apply andb_false_iff; rewrite !Z.leb_gt; lia ].
Qed.

Lemma int_in_unit_interval (n : Z) :
  in_unit_interval (PyInt n) <-> 0 <= n <= 1.
Proof.
  unfold in_unit_interval, unit_interval, factor_value. split.
  - intros (q & Hq & H0 & H1). apply some_inj in Hq; subst q.
    unfold Qle in *; cbn in *. lia.
  - intros H. eexists; split; [reflexivity|]. unfold Qle; cbn. lia.
Qed.

(** The range check decides membership in the unit interval. *)
Lemma range_check_spec (v : pyobj) :
  real_number v -> canonical v ->
  (in_unit_interval v -> chained_le float_zero v float_one = Ok true) /\
  (~ in_unit_interval v -> chained_le float_zero v float_one = Ok false).
Proof.
  intros Hr Hc. destruct v as [| b | n | x | s]; try contradiction.
  - split; [destruct b; reflexivity|].
    intros H; exfalso; apply H.
    exists (inject_Z (Z_of_bool b)); split; [reflexivity|].
    destruct b; split; unfold Qle; cbn; lia.
  - rewrite int_range_check, int_in_unit_interval. split; intros H; f_equal.
    + apply andb_true_iff; rewrite !Z.leb_le; lia.
    + apply andb_false_iff; rewrite !Z.leb_gt; lia.
  - cbn in Hc. pose proof (float_range_check x Hc) as Hx.
    unfold in_unit_interval, factor_value.
    unfold chained_le, float_le_obj, obj_le_float, bind.
    destruct (SFleb float_zero x); cbn [andb] in Hx.
    + destruct (SFleb x float_one); split; intros H; try reflexivity.
      * exfalso; apply H, Hx; reflexivity.
      * apply Hx in H; discriminate.
    + split; intros H; [apply Hx in H; discriminate | reflexivity].
Qed.

(** ** The stages of [parcheck] *)

Arguments get_nparrays : simpl never.
Arguments get_classes : simpl never.
Arguments chained_le : simpl never.

Lemma real_number_isinstance (v : pyobj) :
  real_number v <-> isinstance_float_int v = true.
Proof. destruct v; cbn; intuition discriminate. Qed.

Lemma not_real_number_isinstance (v : pyobj) :
  ~ real_number v <-> isinstance_float_int v = false.
Proof. destruct v; cbn; intuition discriminate. Qed.

(** Stage 1: the type of the factors. *)
Lemma parcheck_factor_h_type Q y h k classes :
  ~ real_number h ->
  parcheck Q y h k classes = Raise (factor_type_error "factor_h" h).
Proof.
  intros Hh. apply not_real_number_isinstance in Hh.
  unfold parcheck. rewrite Hh. reflexivity.
Qed.

Lemma parcheck_factor_k_type Q y h k classes :
  real_number h -> ~ real_number k ->
  parcheck Q y h k classes = Raise (factor_type_error "factor_k" k).
Proof.
  intros Hh Hk. apply real_number_isinstance in Hh.
  apply not_real_number_isinstance in Hk.
  unfold parcheck. rewrite Hh, Hk. reflexivity.
Qed.

(** Stage 2: the range of the factors. *)
Lemma parcheck_factor_h_range Q y h k classes :
  real_number h -> real_number k -> canonical h ->
  ~ in_unit_interval h ->
  parcheck Q y h k classes = Raise (factor_range_error "factor_h" h).
Proof.
  intros Hh Hk Hc Hout.
  destruct (range_check_spec h Hh Hc) as [_ Hfalse].
  apply real_number_isinstance in Hh, Hk.
  unfold parcheck. rewrite Hh, Hk, (Hfalse Hout). reflexivity.
Qed.

Lemma parcheck_factor_k_range Q y h k classes :
  real_number h -> real_number k -> canonical h -> canonical k ->
  in_unit_interval h -> ~ in_unit_interval k ->
  parcheck Q y h k classes = Raise (factor_range_error "factor_k" k).
Proof.
  intros Hh Hk Hch Hck Hin Hout.
  destruct (range_check_spec h Hh Hch) as [Htrue _].
  destruct (range_check_spec k Hk Hck) as [_ Hfalse].
  apply real_number_isinstance in Hh, Hk.
  unfold parcheck. rewrite Hh, Hk, (Htrue Hin), (Hfalse Hout). reflexivity.
Qed.

(** Factors that pass leave the verdict to the checks on the arrays. *)
Lemma parcheck_factors_pass Q y h k classes :
  real_number h -> real_number k -> canonical h -> canonical k ->
  in_unit_interval h -> in_unit_interval k ->
  parcheck Q y h k classes = check_arrays Q y classes.
Proof.
  intros Hh Hk Hch Hck Hinh Hink.
  destruct (range_check_spec h Hh Hch) as [Hth _].
  destruct (range_check_spec k Hk Hck) as [Htk _].
  apply real_number_isinstance in Hh, Hk.
  unfold check_arrays, parcheck.
  rewrite Hh, Hk, (Hth Hinh), (Htk Hink). reflexivity.
Qed.

(** A number of the unit interval is a real number. *)
Lemma in_unit_interval_real (v : pyobj) : in_unit_interval v -> real_number v.
Proof.
  intros (q & Hq & _). destruct v; cbn in *; try exact I; discriminate.
Qed.

(** Stage 3: normalization. *)
Lemma check_arrays_normalization Q y classes e :
  get_nparrays Q y = Raise e ->
  check_arrays Q y classes = Raise e.
Proof.
  intros H. unfold check_arrays, parcheck. cbn. rewrite H. reflexivity.
Qed.

(** Stage 4: dimensions. *)
Lemma check_arrays_ndim_Q Q y classes Q_arr y_arr :
  get_nparrays Q y = Ok (Q_arr, y_arr) ->
  ndim Q_arr <> 2%nat ->
  check_arrays Q y classes = Raise (dimension_error "Q" "2D" (ndim Q_arr)).
Proof.
  intros H Hd. apply Nat.eqb_neq in Hd.
  unfold check_arrays, parcheck. cbn. rewrite H. cbn. rewrite Hd. reflexivity.
Qed.

Lemma check_arrays_ndim_y Q y classes Q_arr y_arr :
  get_nparrays Q y = Ok (Q_arr, y_arr) ->
  ndim Q_arr = 2%nat -> ndim y_arr <> 1%nat ->
  check_arrays Q y classes = Raise (dimension_error "y" "1D" (ndim y_arr)).
Proof.
  intros H HQ Hd. apply Nat.eqb_neq in Hd. apply Nat.eqb_eq in HQ.
  unfold check_arrays, parcheck. cbn. rewrite H. cbn. rewrite HQ, Hd.
  reflexivity.
Qed.

Lemma two_axes (a : ndarray) :
  ndim a = 2%nat -> exists m n, shape a = [m; n].
Proof.
  unfold ndim. destruct (shape a) as [| m [| n [| ? ?]]]; try discriminate.
  intros _. exists m, n. reflexivity.
Qed.

Lemma one_axis (a : ndarray) :
  ndim a = 1%nat -> exists m, shape a = [m].
Proof.
  unfold ndim. destruct (shape a) as [| m [| ? ?]]; try discriminate.
  intros _. exists m. reflexivity.
Qed.

(** Stage 5: the number of samples. *)
Lemma check_arrays_samples Q y classes Q_arr y_arr M N L :
  get_nparrays Q y = Ok (Q_arr, y_arr) ->
  shape Q_arr = [M; N] -> shape y_arr = [L] -> M <> L ->
  check_arrays Q y classes = Raise (sample_count_error M L).
Proof.
  intros H HQ Hy Hne. apply Nat.eqb_neq in Hne.
  unfold check_arrays, parcheck. cbn. rewrite H. cbn.
  unfold ndim, shape_at. rewrite HQ, Hy. cbn. rewrite Hne. reflexivity.
Qed.

(** Stage 6: the type of the labels. *)
Lemma check_arrays_label_type Q y classes Q_arr y_arr M N :
  get_nparrays Q y = Ok (Q_arr, y_arr) ->
  shape Q_arr = [M; N] -> shape y_arr = [M] ->
  issubdtype_integer (dtype_of y_arr) = false ->
  check_arrays Q y classes = Raise (label_type_error (dtype_of y_arr)).
Proof.
  intros H HQ Hy Hd.
  unfold check_arrays, parcheck. cbn. rewrite H. cbn.
  unfold ndim, shape_at. rewrite HQ, Hy. cbn. rewrite Nat.eqb_refl. cbn.
  rewrite Hd. reflexivity.
Qed.

(** Stage 7: the number of classes. *)
Lemma check_arrays_classes Q y classes Q_arr y_arr M N :
  get_nparrays Q y = Ok (Q_arr, y_arr) ->
  shape Q_arr = [M; N] -> shape y_arr = [M] ->
  issubdtype_integer (dtype_of y_arr) = true ->
  check_arrays Q y classes =
    match get_classes y_arr classes with
    | Raise e => Raise e
    | Ok (_, n_classes) =>
        if (N =? n_classes)%nat then Ok tt
        else Raise (class_count_error N n_classes)
    end.
Proof.
  intros H HQ Hy Hd.
  unfold check_arrays, parcheck. cbn. rewrite H. cbn.
  unfold ndim, shape_at. rewrite HQ, Hy. cbn. rewrite Nat.eqb_refl. cbn.
  rewrite Hd. cbn.
  destruct (get_classes y_arr classes) as [[u n] | e]; cbn; [|reflexivity].
  destruct (N =? n)%nat; reflexivity.
Qed.

(** ** [np.unique] on integer labels *)

Section IntegerUnique.

Lemma insert_perm (x : Z) (l : list Z) :
  Permutation (insert Z.ltb x l) (x :: l).
Proof.
  induction l as [| y l IH]; cbn; [reflexivity|].
  destruct (y <? x); [|reflexivity].
  rewrite IH. apply perm_swap.
Qed.

Lemma sort_perm (l : list Z) : Permutation (sort Z.ltb l) l.
Proof.
  induction l as [| x l IH]; cbn; [reflexivity|].
  rewrite insert_perm. now apply perm_skip.
Qed.

Lemma insert_sorted (x : Z) (l : list Z) :
  StronglySorted Z.le l -> StronglySorted Z.le (insert Z.ltb x l).
Proof.
  induction 1 as [| y l Hl IH Hy]; cbn.
  - repeat constructor.
  - destruct (Z.ltb_spec y x) as [Hlt | Hge].
    + constructor; [exact IH|].
      rewrite Forall_forall in *. intros z Hz.
      apply (Permutation_in _ (insert_perm x l)) in Hz.
      destruct Hz as [<- | Hz]; [lia | auto].
    + constructor; [constructor; assumption|].
      constructor; [exact Hge|].
      rewrite Forall_forall in *. intros z Hz. specialize (Hy z Hz). lia.
Qed.

Lemma sort_sorted (l : list Z) : StronglySorted Z.le (sort Z.ltb l).
Proof.
  induction l as [| x l IH]; cbn; [constructor | now apply insert_sorted].
Qed.

Lemma keep_changes_in (p z : Z) (l : list Z) :
  In z (keep_changes Z.eqb p l) -> In z l.
Proof.
  revert p; induction l as [| y l IH]; intros p; cbn; [tauto|].
  destruct (p =? y); cbn; intros H.
  - right; eauto.
  - destruct H as [<- | H]; [now left | right; eauto].
Qed.

Lemma in_keep_changes (p z : Z) (l : list Z) :
  In z l -> z = p \/ In z (keep_changes Z.eqb p l).
Proof.
  revert p; induction l as [| y l IH]; intros p; cbn; [tauto|].
  intros [<- | H].
  - destruct (Z.eqb_spec p y); [now left | right; now left].
  - destruct (IH y H) as [-> | Hin].
    + destruct (Z.eqb_spec p y); [now left | right; now left].
    + right. destruct (p =? y); [exact Hin | now right].
Qed.

Lemma dedup_in (z : Z) (l : list Z) : In z (dedup Z.eqb l) <-> In z l.
Proof.
  destruct l as [| x l]; cbn; [tauto|]. split.
  - intros [<- | H]; [now left | right; eapply keep_changes_in; eauto].
  - intros [<- | H]; [now left|].
    destruct (in_keep_changes x z l H) as [-> | Hin]; [now left | now right].
Qed.

Lemma keep_changes_sorted (p : Z) (l : list Z) :
  StronglySorted Z.le (p :: l) ->
  StronglySorted Z.lt (p :: keep_changes Z.eqb p l).
Proof.
  revert p; induction l as [| y l IH]; intros p Hs; cbn.
  - repeat constructor.
  - apply StronglySorted_inv in Hs as [Hs Hp].
    pose proof (IH y Hs) as IHy.
    apply Forall_inv in Hp as Hpy.
    destruct (Z.eqb_spec p y) as [-> | Hne]; [exact IHy|].
    constructor; [exact IHy|].
    apply StronglySorted_inv in IHy as [_ Hy].
    constructor; [lia|].
    rewrite Forall_forall in *. intros z Hz. specialize (Hy z Hz). lia.
Qed.

Lemma dedup_sorted (l : list Z) :
  StronglySorted Z.le l -> StronglySorted Z.lt (dedup Z.eqb l).
Proof.
  destruct l as [| x l]; cbn; [constructor | apply keep_changes_sorted].
Qed.

(** The result of [np.unique] is strictly ascending ... *)
Lemma unique_sorted (l : list Z) :
  StronglySorted Z.lt (sort_unique Z.ltb Z.eqb l).
Proof. apply dedup_sorted, sort_sorted. Qed.

(** ... and holds exactly the values of its argument. *)
Lemma unique_in (z : Z) (l : list Z) :
  In z (sort_unique Z.ltb Z.eqb l) <-> In z l.
Proof.
  unfold sort_unique. rewrite dedup_in. split; intros H.
  - eapply Permutation_in; [apply sort_perm | exact H].
  - eapply Permutation_in; [symmetry; apply sort_perm | exact H].
Qed.

Lemma strictly_sorted_NoDup (l : list Z) : StronglySorted Z.lt l -> NoDup l.
Proof.
  induction 1 as [| x l Hl IH Hx]; constructor; [|exact IH].
  intros Hin. rewrite Forall_forall in Hx. specialize (Hx x Hin). lia.
Qed.

(** A strictly ascending list is determined by its set of values. *)
Lemma strictly_sorted_unique (l1 l2 : list Z) :
  StronglySorted Z.lt l1 -> StronglySorted Z.lt l2 ->
  (forall z, In z l1 <-> In z l2) -> l1 = l2.
Proof.
  intros H1; revert l2.
  induction H1 as [| x l1 Hl1 IH Hx]; intros l2 H2 Heq.
  - destruct l2 as [| y l2]; [reflexivity|].
    exfalso. apply (Heq y). now left.
  - destruct H2 as [| y l2 Hl2 Hy].
    + exfalso. apply (Heq x). now left.
    + rewrite Forall_forall in Hx, Hy.
      assert (x = y) as ->.
      { destruct (proj1 (Heq x) (or_introl eq_refl)) as [-> | Hxin];
          [reflexivity|].
        destruct (proj2 (Heq y) (or_introl eq_refl)) as [-> | Hyin];
          [reflexivity|].
        specialize (Hx y Hyin). specialize (Hy x Hxin). lia. }
      f_equal. apply IH; [exact Hl2|].
      intros z. split; intros Hz.
      * destruct (proj1 (Heq z) (or_intror Hz)) as [<- | H]; [|exact H].
        specialize (Hx y Hz). lia.
      * destruct (proj2 (Heq z) (or_intror Hz)) as [<- | H]; [|exact H].
        specialize (Hy y Hz). lia.
Qed.

(** The result does not depend on the order of the labels. *)
Lemma unique_permutation (l1 l2 : list Z) :
  Permutation l1 l2 -> sort_unique Z.ltb Z.eqb l1 = sort_unique Z.ltb Z.eqb l2.
Proof.
  intros HP. apply strictly_sorted_unique; try apply unique_sorted.
  intros z. rewrite !unique_in.
  split; apply Permutation_in; [exact HP | symmetry; exact HP].
Qed.

(** Its length is the number of distinct labels. *)
Lemma unique_length (l : list Z) :
  length (sort_unique Z.ltb Z.eqb l) = distinct_count l.
Proof.
  unfold distinct_count. apply Permutation_length, NoDup_Permutation.
  - apply strictly_sorted_NoDup, unique_sorted.
  - apply NoDup_nodup.
  - intros z. rewrite unique_in, nodup_In. reflexivity.
Qed.

End IntegerUnique.

Arguments np_unique : simpl never.

Lemma np_unique_ints (y : ndarray) (labels : list Z) :
  elems y = Ints labels ->
  np_unique y = Ok (vector (Ints (sort_unique Z.ltb Z.eqb labels))).
Proof. unfold np_unique. intros ->. reflexivity. Qed.

(** Without explicit classes, [get_classes] on integer labels. *)
Lemma get_classes_ints (y : ndarray) (labels : list Z) :
  elems y = Ints labels ->
  get_classes y no_classes =
    Ok (vector (Ints (sort_unique Z.ltb Z.eqb labels)), distinct_count labels).
Proof.
  intros H. unfold get_classes. rewrite (np_unique_ints y labels H).
  cbn. rewrite unique_length. reflexivity.
Qed.

(** An integer buffer has an integer dtype, int64 or uint64. *)
Lemma ints_dtype_integer (labels : list Z) :
  issubdtype_integer (buffer_dtype (Ints labels)) = true.
Proof. cbn. destruct (forallb fits_int64 labels); reflexivity. Qed.

Lemma integer_dtype_of_ints (y : ndarray) (labels : list Z) :
  elems y = Ints labels -> issubdtype_integer (dtype_of y) = true.
Proof. unfold dtype_of. intros ->. apply ints_dtype_integer. Qed.

(** ** Array construction and [get_nparrays] *)

(** Induction on array-likes, with the hypothesis for every item of a list. *)
Lemma arraylike_induction (P : arraylike -> Prop) :
  (forall s, P (Item s)) ->
  (forall items, Forall P items -> P (Seq items)) ->
  forall a, P a.
Proof.
  intros HItem HSeq.
  fix IH 1. intros [s | items].
  - apply HItem.
  - apply HSeq. induction items as [| b items IHitems]; constructor.
    + apply IH.
    + exact IHitems.
Qed.

Lemma shape_eqb_eq (s t : list nat) : shape_eqb s t = true <-> s = t.
Proof.
  unfold shape_eqb. destruct (list_eq_dec Nat.eq_dec s t); intuition congruence.
Qed.

Lemma same_shapes_spec (s : list nat) (items : list arraylike) :
  forallb (fun r => match r with
                    | Some t => shape_eqb s t
                    | None => false
                    end) (map discover_shape items) = true <->
  Forall (fun b => discover_shape b = Some s) items.
Proof.
  induction items as [| b items IH]; cbn.
  - split; [constructor | reflexivity].
  - rewrite andb_true_iff, IH. split.
    + intros [Hb Hitems]. constructor; [|exact Hitems].
      destruct (discover_shape b) as [t |]; [|discriminate].
      apply shape_eqb_eq in Hb. now subst.
    + intros H. inversion H as [| ? ? Hb Hitems]; subst. split; [|exact Hitems].
      rewrite Hb. now apply shape_eqb_eq.
Qed.

(** Shape discovery computes the shape of rectangular array-likes, and only
    of those. *)
Lemma discover_shape_spec (a : arraylike) (s : list nat) :
  discover_shape a = Some s <-> has_shape a s.
Proof.
  revert s. induction a as [x | items IH] using arraylike_induction; intros s.
  - cbn. split.
    + intros H; apply some_inj in H; subst. constructor.
    + intros H; inversion H; reflexivity.
  - destruct items as [| a items].
    + cbn. split.
      * intros H; apply some_inj in H; subst. constructor.
      * intros H; inversion H; reflexivity.
    + apply Forall_cons_iff in IH as [IHa IHitems].
      change (discover_shape (Seq (a :: items)))
        with (match discover_shape a with
              | None => None
              | Some s0 =>
                  if forallb (fun r => match r with
                                       | Some t => shape_eqb s0 t
                                       | None => false
                                       end) (map discover_shape items)
                  then Some (length (a :: items) :: s0)
                  else None
              end).
      split.
      * destruct (discover_shape a) as [s0 |] eqn:Ha; [|discriminate].
        destruct (forallb _ _) eqn:Hall; [|discriminate].
        intros H; apply some_inj in H; subst s. cbn [length].
        apply same_shapes_spec in Hall.
        constructor; [now apply IHa|].
        rewrite Forall_forall in *. intros b Hb.
        apply (IHitems b Hb), Hall, Hb.
      * intros H. inversion H as [| | ? ? s0 Ha Hitems]; subst.
        apply IHa in Ha. rewrite Ha.
        assert (Hall : Forall (fun b => discover_shape b = Some s0) items).
        { rewrite Forall_forall in *. intros b Hb.
          apply (IHitems b Hb), Hitems, Hb. }
        apply same_shapes_spec in Hall. rewrite Hall. reflexivity.
Qed.

Lemma rectangular_discover (a : arraylike) :
  rectangular a <-> discover_shape a <> None.
Proof.
  unfold rectangular. split.
  - intros [s Hs]. apply discover_shape_spec in Hs. congruence.
  - destruct (discover_shape a) as [s |] eqn:H; [|congruence].
    intros _. exists s. now apply discover_shape_spec.
Qed.

(** Conversion of the leaves to float fails on the first leaf that [float]
    rejects, with the failure of that leaf. *)
Lemma to_float64_ok (ls : list scalar) :
  Forall float_convertible ls -> exists xs, to_float64 ls = Ok xs.
Proof.
  induction 1 as [| s ls Hs _ [xs IH]]; cbn.
  - now exists [].
  - destruct s; try contradiction; cbn in *; rewrite ?Hs, IH; cbn; eauto.
Qed.

Lemma float_of_leaf_cases (s : scalar) :
  (float_convertible s /\ exists x, float_of_leaf s = Ok x) \/
  ((exists id, s = ObjectLeaf id) /\ float_of_leaf s = Raise float_failure) \/
  (overflowing s /\ float_of_leaf s = Raise overflow_failure).
Proof.
  destruct s as [| b | n | x | id]; cbn.
  - left; eauto.
  - left; eauto.
  - destruct (float_overflows n); [right; right | left]; eauto.
  - left; eauto.
  - right; left; eauto.
Qed.

Lemma to_float64_raise (ls : list scalar) :
  ~ Forall float_convertible ls ->
  to_float64 ls = Raise float_failure \/ to_float64 ls = Raise overflow_failure.
Proof.
  induction ls as [| s ls IH]; intros H.
  - exfalso; apply H; constructor.
  - cbn. destruct (float_of_leaf_cases s)
      as [[Hs [x ->]] | [[_ ->] | [_ ->]]]; cbn; auto.
    assert (Hls : ~ Forall float_convertible ls)
      by (intros Hls; apply H; now constructor).
    destruct (IH Hls) as [-> | ->]; cbn; auto.
Qed.

(** Without an [int] too large for a float, the only failure is the one of
    [float] on an object. *)
Lemma to_float64_raise_no_overflow (ls : list scalar) :
  Forall (fun s => ~ overflowing s) ls ->
  ~ Forall float_convertible ls ->
  to_float64 ls = Raise float_failure.
Proof.
  induction 1 as [| s ls Hs _ IH]; intros H.
  - exfalso; apply H; constructor.
  - cbn. destruct (float_of_leaf_cases s)
      as [[Hc [x ->]] | [[_ ->] | [Ho _]]]; cbn; auto.
    + rewrite IH; [reflexivity|].
      intros Hls. apply H. now constructor.
    + contradiction.
Qed.




Lemma Forall_float_convertible_dec (ls : list scalar) :
  Forall float_convertible ls \/ ~ Forall float_convertible ls.
Proof.
  induction ls as [| s ls [IH | IH]].
  - left; constructor.
  - destruct (float_of_leaf_cases s) as [[Hs _] | [[[id ->] _] | [Ho _]]].
    + left; now constructor.
    + right; intros H; inversion H; contradiction.
    + right; intros H; inversion H as [| ? ? Hs _]; subst.
      destruct s; cbn in *; try contradiction; congruence.
  - right; intros H; inversion H; contradiction.
Qed.

Lemma asanyarray_spec (a : arraylike) :
  (forall s, has_shape a s ->
     asanyarray a = Ok (NDArray s (infer_buffer (leaves a)))) /\
  (~ rectangular a -> asanyarray a = Raise ragged_failure).
Proof.
  unfold asanyarray. split.
  - intros s Hs. apply discover_shape_spec in Hs. rewrite Hs. reflexivity.
  - intros H. rewrite rectangular_discover in H.
    destruct (discover_shape a); [exfalso; apply H; congruence | reflexivity].
Qed.

Lemma asanyarray_float64_spec (a : arraylike) :
  (forall s, has_shape a s -> Forall float_convertible (leaves a) ->
     exists xs, to_float64 (leaves a) = Ok xs /\
                asanyarray_float64 a = Ok (NDArray s (Floats xs))) /\
  (~ rectangular a -> asanyarray_float64 a = Raise ragged_failure) /\
  (rectangular a -> ~ Forall float_convertible (leaves a) ->
     Forall (fun s => ~ overflowing s) (leaves a) ->
     asanyarray_float64 a = Raise float_failure).
Proof.
  unfold asanyarray_float64. repeat split.
  - intros s Hs Hnum. apply discover_shape_spec in Hs. rewrite Hs.
    destruct (to_float64_ok _ Hnum) as [xs Hxs]. exists xs.
    rewrite Hxs. split; reflexivity.
  - intros H. rewrite rectangular_discover in H.
    destruct (discover_shape a); [exfalso; apply H; congruence | reflexivity].
  - intros [s Hs] Hnum Hno. apply discover_shape_spec in Hs. rewrite Hs.
    rewrite (to_float64_raise_no_overflow _ Hno Hnum). reflexivity.
Qed.

Lemma rectangular_dec (a : arraylike) : rectangular a \/ ~ rectangular a.
Proof.
  rewrite rectangular_discover.
  destruct (discover_shape a); [left | right]; congruence.
Qed.

(** Array construction raises nothing but these failures. *)
Lemma asanyarray_raise (a : arraylike) (e : exn) :
  asanyarray a = Raise e -> e = ragged_failure.
Proof.
  unfold asanyarray. destruct (discover_shape a); [discriminate|].
  intros H; injection H as <-; reflexivity.
Qed.

Lemma asanyarray_float64_raise (a : arraylike) (e : exn) :
  asanyarray_float64 a = Raise e ->
  e = ragged_failure \/ e = float_failure \/ e = overflow_failure.
Proof.
  unfold asanyarray_float64. destruct (discover_shape a) as [s |].
  - destruct (Forall_float_convertible_dec (leaves a)) as [H | H].
    + destruct (to_float64_ok _ H) as [xs ->]. discriminate.
    + destruct (to_float64_raise _ H) as [-> | ->]; cbn;
        intros H'; injection H' as <-; auto.
  - intros H; injection H as <-; now left.
Qed.

(** [get_nparrays] converts [Q], then [y]; it wraps the first failure that
    is a [TypeError] or a [ValueError] and lets an [OverflowError] pass. *)
Lemma get_nparrays_ok (Q y : arraylike) (Q_arr y_arr : ndarray) :
  get_nparrays Q y = Ok (Q_arr, y_arr) <->
  asanyarray_float64 Q = Ok Q_arr /\ asanyarray y = Ok y_arr.
Proof.
  unfold get_nparrays, try_except_type_value. split.
  - destruct (asanyarray_float64 Q) as [qa | e] eqn:HQ; cbn.
    + destruct (asanyarray y) as [ya | e] eqn:Hy; cbn.
      * intros H; injection H as <- <-; split; reflexivity.
      * apply asanyarray_raise in Hy; subst; discriminate.
    + apply asanyarray_float64_raise in HQ as [-> | [-> | ->]]; discriminate.
  - intros [-> ->]. reflexivity.
Qed.

Lemma get_nparrays_Q_fails (Q y : arraylike) (e : exn) :
  asanyarray_float64 Q = Raise e -> exn_kind e <> OverflowError ->
  get_nparrays Q y = Raise (conversion_error e).
Proof.
  intros H Hk. unfold get_nparrays, try_except_type_value. rewrite H.
  apply asanyarray_float64_raise in H as [-> | [-> | ->]];
    try reflexivity.
  exfalso. now apply Hk.
Qed.

Lemma get_nparrays_Q_overflows (Q y : arraylike) :
  asanyarray_float64 Q = Raise overflow_failure ->
  get_nparrays Q y = Raise overflow_failure.
Proof.
  intros H. unfold get_nparrays, try_except_type_value. rewrite H.
  reflexivity.
Qed.

Lemma get_nparrays_y_fails (Q y : arraylike) (Q_arr : ndarray) (e : exn) :
  asanyarray_float64 Q = Ok Q_arr -> asanyarray y = Raise e ->
  get_nparrays Q y = Raise (conversion_error e).
Proof.
  intros HQ Hy. unfold get_nparrays, try_except_type_value. rewrite HQ, Hy.
  apply asanyarray_raise in Hy as ->. reflexivity.
Qed.

(** ** The errors of the checks on the arrays *)

Lemma py_lt_raise (a b : scalar) (e : exn) :
  py_lt a b = Raise e -> library_error e.
Proof.
  unfold py_lt, library_error.
  destruct (orderable a && orderable b); [discriminate|].
  intros H; injection H as <-; cbn; eauto.
Qed.

Lemma insert_obj_raise (x : scalar) (l : list scalar) (e : exn) :
  insert_obj x l = Raise e -> library_error e.
Proof.
  induction l as [| y l IH]; cbn; [discriminate|].
  destruct (py_lt y x) as [b | e'] eqn:Hlt; cbn.
  - destruct b; [|discriminate].
    destruct (insert_obj x l) as [r | e'']; cbn; [discriminate|].
    intros H; injection H as <-. now apply IH.
  - intros H; injection H as <-. eapply py_lt_raise; eauto.
Qed.

Lemma sort_obj_raise (l : list scalar) (e : exn) :
  sort_obj l = Raise e -> library_error e.
Proof.
  induction l as [| x l IH]; cbn; [discriminate|].
  destruct (sort_obj l) as [s | e']; cbn.
  - apply insert_obj_raise.
  - intros H; injection H as <-. now apply IH.
Qed.

Lemma np_unique_shape (y u : ndarray) :
  np_unique y = Ok u -> exists n, shape u = [n].
Proof.
  unfold np_unique.
  destruct (elems y) as [l | l | l | l]; cbn;
    try (intros H; injection H as <-; cbn; eauto).
  destruct (sort_obj l); cbn; [|discriminate].
  intros H; injection H as <-; cbn; eauto.
Qed.

Lemma get_classes_raise (y : ndarray) (classes : arraylike) (e : exn) :
  get_classes y classes = Raise e -> library_error e.
Proof.
  unfold get_classes. destruct (is_None classes); cbn [negb].
  - destruct (np_unique y) as [u | e'] eqn:Hu; cbn.
    + destruct (np_unique_shape _ _ Hu) as [n Hn]. unfold len. rewrite Hn.
      discriminate.
    + intros H; injection H as <-.
      unfold np_unique in Hu. destruct (elems y) as [l | l | l | l];
        try discriminate.
      destruct (sort_obj l) as [s | e''] eqn:Hs; cbn in Hu; [discriminate|].
      injection Hu as <-. eapply sort_obj_raise; eauto.
  - destruct (asanyarray classes) as [u | e'] eqn:Hc; cbn.
    + unfold len. destruct (shape u); cbn; [|discriminate].
      intros H; injection H as <-. red; cbn; eauto.
    + apply asanyarray_raise in Hc as ->.
      intros H; injection H as <-. red; cbn; eauto.
Qed.

Lemma get_nparrays_raise (Q y : arraylike) (e : exn) :
  get_nparrays Q y = Raise e ->
  (exists inner, e = conversion_error inner) \/ e = overflow_failure.
Proof.
  destruct (asanyarray_float64 Q) as [qa | e'] eqn:HQ.
  - destruct (asanyarray y) as [ya | e'] eqn:Hy.
    + rewrite (proj2 (get_nparrays_ok Q y qa ya) (conj HQ Hy)). discriminate.
    + rewrite (get_nparrays_y_fails _ _ _ _ HQ Hy).
      intros H; injection H as <-; eauto.
  - destruct (asanyarray_float64_raise _ _ HQ) as [-> | [-> | ->]].
    + rewrite (get_nparrays_Q_fails _ _ _ HQ) by discriminate.
      intros H; injection H as <-; eauto.
    + rewrite (get_nparrays_Q_fails _ _ _ HQ) by discriminate.
      intros H; injection H as <-; eauto.
    + rewrite (get_nparrays_Q_overflows _ _ HQ).
      intros H; injection H as <-; auto.
Qed.




(** ** The validation contract *)

(** Array-likes that are a matrix of entries [float] accepts and a vector
    are normalized to a float64 matrix and a vector of the inferred dtype. *)
Lemma get_nparrays_well_formed (Q y : arraylike) (sQ sy : list nat) :
  has_shape Q sQ -> Forall float_convertible (leaves Q) -> has_shape y sy ->
  exists xs,
    to_float64 (leaves Q) = Ok xs /\
    get_nparrays Q y =
      Ok (NDArray sQ (Floats xs), NDArray sy (infer_buffer (leaves y))).
Proof.
  intros HQ Hnum Hy.
  destruct (asanyarray_float64_spec Q) as [Hok _].
  destruct (Hok sQ HQ Hnum) as (xs & Hxs & HQa).
  exists xs. split; [exact Hxs|].
  apply get_nparrays_ok. split; [exact HQa|].
  now apply asanyarray_spec.
Qed.

(** With inferred classes, the arrays pass exactly when the number of
    columns is the number of distinct labels. *)
Lemma check_arrays_inferred Q y Q_arr y_arr M N labels :
  get_nparrays Q y = Ok (Q_arr, y_arr) ->
  shape Q_arr = [M; N] -> shape y_arr = [M] -> elems y_arr = Ints labels ->
  check_arrays Q y no_classes =
    if (N =? distinct_count labels)%nat then Ok tt
    else Raise (class_count_error N (distinct_count labels)).
Proof.
  intros Hn HQ Hy Hl.
  rewrite (check_arrays_classes _ _ _ _ _ _ _ Hn HQ Hy).
  - rewrite (get_classes_ints _ _ Hl). reflexivity.
  - now apply (integer_dtype_of_ints _ labels).
Qed.

Lemma validate_well_formed Q y h k M N labels :
  canonical h -> canonical k ->
  in_unit_interval h -> in_unit_interval k ->
  has_shape Q [M; N] -> Forall float_convertible (leaves Q) ->
  has_shape y [M] -> infer_buffer (leaves y) = Ints labels ->
  N = distinct_count labels ->
  parcheck Q y h k no_classes = Ok tt.
Proof.
  intros Hch Hck Hh Hk HQ Hnum Hy Hl HN.
  rewrite parcheck_factors_pass by auto using in_unit_interval_real.
  destruct (get_nparrays_well_formed Q y _ _ HQ Hnum Hy) as (xs & _ & Hn).
  rewrite (check_arrays_inferred _ _ _ _ M N labels Hn eq_refl eq_refl Hl).
  subst N. rewrite Nat.eqb_refl. reflexivity.
Qed.

(** C1. For factors of the closed interval [0, 1] and a well-formed pair —
    [Q] a matrix of shape (M, N) whose entries NumPy stores as floats, [y]
    a vector of M integer labels, N the number of distinct labels — and no
    explicit classes, [parcheck] returns [None] and raises nothing. *)
Theorem validate_accepts_well_formed
    (Q y : arraylike) (factor_h factor_k : pyobj) (M N : nat)
    (labels : list Z) :
  canonical factor_h -> canonical factor_k ->
  in_unit_interval factor_h -> in_unit_interval factor_k ->
  has_shape Q [M; N] -> Forall float_convertible (leaves Q) ->
  has_shape y [M] -> infer_buffer (leaves y) = Ints labels ->
  N = distinct_count labels ->
  parcheck Q y factor_h factor_k no_classes = Ok tt.
Proof.
  intros Hch Hck Hh Hk HQ Hnum Hy Hl HN.
  (* the factor checks pass *)
  rewrite parcheck_factors_pass by auto using in_unit_interval_real.
  (* normalization succeeds, with the shapes of the array-likes *)
  destruct (get_nparrays_well_formed Q y _ _ HQ Hnum Hy) as (xs & _ & Hn).
  (* dimensions, sample count and label type pass; the class count is the
     number of distinct labels *)
  rewrite (check_arrays_inferred _ _ _ _ M N labels Hn eq_refl eq_refl Hl).
  subst N. rewrite Nat.eqb_refl. reflexivity.
Qed.

Lemma has_shape_vector (items : list arraylike) :
  items <> [] -> Forall (fun b => has_shape b []) items ->
  has_shape (Seq items) [length items].
Proof.
  destruct items as [| a items]; [congruence|].
  intros _ H. apply Forall_cons_iff in H as [Ha Hitems].
  cbn [length]. now constructor.
Qed.

Lemma has_shape_Q_of_shape (m n : nat) :
  has_shape (Q_of_shape (S m) (S n)) [S m; S n].
Proof.
  unfold Q_of_shape.
  assert (Hrow : has_shape (Seq (repeat (float_item float_half) (S n))) [S n]).
  { replace (S n) with (length (repeat (float_item float_half) (S n))) at 2
      by apply repeat_length.
    apply has_shape_vector; [discriminate|].
    apply Forall_forall. intros b Hb. apply repeat_spec in Hb as ->.
    constructor. }
  cbn [repeat].
  rewrite <- (repeat_length (Seq (repeat (float_item float_half) (S n))) m)
    at 2.
  constructor; [exact Hrow|].
  apply Forall_forall. intros b Hb. apply repeat_spec in Hb as ->. exact Hrow.
Qed.

Lemma in_unit_interval_half : in_unit_interval (PyFloat float_half).
Proof.
  eexists. split; [reflexivity|].
  split; unfold Qle; vm_compute; discriminate.
Qed.

Lemma validate_accepts_well_formed_witness :
  parcheck (Q_of_shape 4 3) y_0121 (PyFloat float_half) (PyInt 1) no_classes =
    Ok tt.
Proof.
  apply (validate_accepts_well_formed (Q_of_shape 4 3) y_0121
           (PyFloat float_half) (PyInt 1) 4 3 [0; 1; 2; 1]).
  - reflexivity.
  - exact I.
  - exact in_unit_interval_half.
  - apply int_in_unit_interval; lia.
  - apply (has_shape_Q_of_shape 3 2).
  - repeat constructor.
  - apply (has_shape_vector [_; _; _; _]); [discriminate | repeat constructor].
  - reflexivity.
  - reflexivity.
Defined.

Lemma in_unit_interval_bool (b : bool) : in_unit_interval (PyBool b).
Proof.
  exists (inject_Z (Z_of_bool b)). split; [reflexivity|].
  destruct b; split; unfold Qle; cbn; lia.
Qed.

(** C9. Boolean scaling factors are accepted: a [bool] is an [int] whose
    value, 0 or 1, lies in [0.0, 1.0]; with any two booleans as factors a
    well-formed pair passes and nothing is raised. *)
Theorem validate_accepts_boolean_factors
    (Q y : arraylike) (b_h b_k : bool) (M N : nat) (labels : list Z) :
  has_shape Q [M; N] -> Forall float_convertible (leaves Q) ->
  has_shape y [M] -> infer_buffer (leaves y) = Ints labels ->
  N = distinct_count labels ->
  isinstance_float_int (PyBool b_h) = true /\
  isinstance_float_int (PyBool b_k) = true /\
  chained_le float_zero (PyBool b_h) float_one = Ok true /\
  chained_le float_zero (PyBool b_k) float_one = Ok true /\
  parcheck Q y (PyBool b_h) (PyBool b_k) no_classes = Ok tt.
Proof.
  intros HQ Hnum Hy Hl HN. repeat split.
  - destruct b_h; reflexivity.
  - destruct b_k; reflexivity.
  - apply (validate_well_formed Q y _ _ M N labels);
      auto using in_unit_interval_bool; exact I.
Qed.

Lemma validate_accepts_boolean_factors_witness :
  parcheck (Q_of_shape 4 3) y_0121 (PyBool true) (PyBool false) no_classes =
    Ok tt.
Proof.
  apply (validate_accepts_boolean_factors (Q_of_shape 4 3) y_0121
           true false 4 3 [0; 1; 2; 1]).
  - apply (has_shape_Q_of_shape 3 2).
  - repeat constructor.
  - apply (has_shape_vector [_; _; _; _]); [discriminate | repeat constructor].
  - reflexivity.
  - reflexivity.
Defined.

(** C6. Without explicit classes the class count is the number of distinct
    values of the label vector, and once the earlier checks have passed
    [parcheck] raises the [ValueError] that reports the number of columns of
    [Q] and this count exactly when the two differ.  [Q] of shape (4, 3)
    with [y = [0, 1, 2, 1]] passes; with [classes = [0, 1, 2, 3]] the same
    call raises the [ValueError] for 3 against 4. *)
Theorem inferred_class_count :
  (forall (y : ndarray) (labels : list Z),
      elems y = Ints labels ->
      exists unique_labels,
        get_classes y no_classes = Ok (unique_labels, distinct_count labels)) /\
  (forall (Q y : arraylike) (factor_h factor_k : pyobj)
          (Q_arr y_arr : ndarray) (M N : nat) (labels : list Z),
      canonical factor_h -> canonical factor_k ->
      in_unit_interval factor_h -> in_unit_interval factor_k ->
      get_nparrays Q y = Ok (Q_arr, y_arr) ->
      shape Q_arr = [M; N] -> shape y_arr = [M] ->
      elems y_arr = Ints labels ->
      (N = distinct_count labels ->
       parcheck Q y factor_h factor_k no_classes = Ok tt) /\
      (N <> distinct_count labels ->
       parcheck Q y factor_h factor_k no_classes =
         Raise (class_count_error N (distinct_count labels)))) /\
  parcheck (Q_of_shape 4 3) y_0121 (PyFloat float_half) (PyFloat float_half)
    no_classes = Ok tt /\
  parcheck (Q_of_shape 4 3) y_0121 (PyFloat float_half) (PyFloat float_half)
    classes_0123 = Raise (class_count_error 3 4) /\
  (forall n_features n_classes,
      exn_kind (class_count_error n_features n_classes) = ValueError).
Proof.
  split; [| split; [| split; [| split]; reflexivity]].
  - intros y labels Hl. rewrite (get_classes_ints _ _ Hl). eauto.
  - intros Q y h k Q_arr y_arr M N labels Hch Hck Hh Hk Hn HQ Hy Hl.
    rewrite parcheck_factors_pass by auto using in_unit_interval_real.
    rewrite (check_arrays_inferred _ _ _ _ M N labels Hn HQ Hy Hl).
    split; intros HN.
    + apply Nat.eqb_eq in HN. rewrite HN. reflexivity.
    + apply Nat.eqb_neq in HN. rewrite HN. reflexivity.
Qed.

Lemma inferred_class_count_witness :
  parcheck (Q_of_shape 4 3) y_0121 (PyInt 0) (PyInt 1) no_classes = Ok tt /\
  parcheck (Q_of_shape 2 3) y_57 (PyInt 0) (PyInt 1) no_classes =
    Raise (class_count_error 3 2).
Proof.
  destruct inferred_class_count as (_ & Hcheck & _).
  split.
  - refine (proj1 (Hcheck (Q_of_shape 4 3) y_0121 (PyInt 0) (PyInt 1)
                     _ _ 4%nat 3%nat [0; 1; 2; 1] I I _ _ eq_refl eq_refl
                     eq_refl eq_refl) eq_refl);
      apply int_in_unit_interval; lia.
  - refine (proj2 (Hcheck (Q_of_shape 2 3) y_57 (PyInt 0) (PyInt 1)
                     _ _ 2%nat 3%nat [5; 7] I I _ _ eq_refl eq_refl
                     eq_refl eq_refl) _);
      [apply int_in_unit_interval; lia .. | discriminate].
Defined.

(** C7. Once the dimension and shape checks have passed, a label vector
    whose elements are not of an integer type (floating-point labels such as
    [[0.0, 1.0]], for example) makes [parcheck] raise the [TypeError] that
    reports the dtype found. *)
Theorem label_type_check
    (Q y : arraylike) (factor_h factor_k : pyobj)
    (classes : arraylike) (Q_arr y_arr : ndarray) (M N : nat) :
  canonical factor_h -> canonical factor_k ->
  in_unit_interval factor_h -> in_unit_interval factor_k ->
  get_nparrays Q y = Ok (Q_arr, y_arr) ->
  shape Q_arr = [M; N] -> shape y_arr = [M] ->
  issubdtype_integer (dtype_of y_arr) = false ->
  parcheck Q y factor_h factor_k classes =
    Raise (label_type_error (dtype_of y_arr)) /\
  exn_kind (label_type_error (dtype_of y_arr)) = TypeError.
Proof.
  intros Hch Hck Hh Hk Hn HQ Hy Hd. split; [|reflexivity].
  rewrite parcheck_factors_pass by auto using in_unit_interval_real.
  apply (check_arrays_label_type _ _ _ _ _ _ _ Hn HQ Hy Hd).
Qed.

Lemma label_type_check_witness :
  parcheck (Q_of_shape 2 2) y_float (PyInt 0) (PyInt 1) no_classes =
    Raise (label_type_error float64) /\
  exn_kind (label_type_error float64) = TypeError.
Proof.
  refine (label_type_check (Q_of_shape 2 2) y_float (PyInt 0) (PyInt 1)
            no_classes _ _ 2 2 I I _ _ eq_refl eq_refl eq_refl eq_refl);
    apply int_in_unit_interval; lia.
Defined.

(** C8. After a successful normalization [parcheck] raises the [ValueError]
    that reports the number of axes when [Q] has not exactly 2 axes, or
    (with [Q] of 2 axes) when [y] has not exactly 1 axis; when both have the
    right number of axes and the first axis of [Q] differs in length from
    [y], it raises the [ValueError] that reports both lengths. *)
Theorem dimension_and_shape_checks
    (Q y : arraylike) (factor_h factor_k : pyobj)
    (classes : arraylike) (Q_arr y_arr : ndarray) :
  canonical factor_h -> canonical factor_k ->
  in_unit_interval factor_h -> in_unit_interval factor_k ->
  get_nparrays Q y = Ok (Q_arr, y_arr) ->
  (ndim Q_arr <> 2%nat ->
   parcheck Q y factor_h factor_k classes =
     Raise (dimension_error "Q" "2D" (ndim Q_arr))) /\
  (ndim Q_arr = 2%nat -> ndim y_arr <> 1%nat ->
   parcheck Q y factor_h factor_k classes =
     Raise (dimension_error "y" "1D" (ndim y_arr))) /\
  (forall M N L : nat,
      shape Q_arr = [M; N] -> shape y_arr = [L] -> M <> L ->
      parcheck Q y factor_h factor_k classes =
        Raise (sample_count_error M L)) /\
  (forall name expected n,
      exn_kind (dimension_error name expected n) = ValueError) /\
  (forall m l, exn_kind (sample_count_error m l) = ValueError).
Proof.
  intros Hch Hck Hh Hk Hn.
  rewrite parcheck_factors_pass by auto using in_unit_interval_real.
  repeat split.
  - apply (check_arrays_ndim_Q _ _ _ _ _ Hn).
  - apply (check_arrays_ndim_y _ _ _ _ _ Hn).
  - intros M N L. apply (check_arrays_samples _ _ _ _ _ _ _ _ Hn).
Qed.

Lemma dimension_and_shape_checks_witness :
  parcheck list_123 y_0121 (PyInt 0) (PyInt 1) no_classes =
    Raise (dimension_error "Q" "2D" 1) /\
  parcheck (Q_of_shape 5 3) y_0121 (PyInt 0) (PyInt 1) no_classes =
    Raise (sample_count_error 5 4).
Proof.
  split.
  - refine (proj1 (dimension_and_shape_checks list_123 y_0121 (PyInt 0)
                     (PyInt 1) no_classes _ _ I I _ _ eq_refl) _);
      [apply int_in_unit_interval; lia .. | discriminate].
  - refine (proj1 (proj2 (proj2 (dimension_and_shape_checks (Q_of_shape 5 3)
                     y_0121 (PyInt 0) (PyInt 1) no_classes _ _ I I _ _
                     eq_refl)))
              5%nat 3%nat 4%nat eq_refl eq_refl _);
      [apply int_in_unit_interval; lia .. | discriminate].
Defined.




(** C5. An explicit class set is the authority: [get_classes] returns it
    with its length as the class count, whatever the label vector holds, and
    [parcheck] checks no membership: whatever the integer labels are (also
    labels that are not among the classes), the call passes as soon as the
    other checks pass and [Q] has as many columns as there are classes. *)
Theorem explicit_classes_are_authoritative
    (classes : arraylike) (class_arr : ndarray) (n : nat) (rest : list nat) :
  asanyarray classes = Ok class_arr ->
  shape class_arr = n :: rest ->
  (forall y : ndarray, get_classes y classes = Ok (class_arr, n)) /\
  (forall (Q y : arraylike) (factor_h factor_k : pyobj)
          (Q_arr y_arr : ndarray) (M : nat),
      canonical factor_h -> canonical factor_k ->
      in_unit_interval factor_h -> in_unit_interval factor_k ->
      get_nparrays Q y = Ok (Q_arr, y_arr) ->
      shape Q_arr = [M; n] -> shape y_arr = [M] ->
      issubdtype_integer (dtype_of y_arr) = true ->
      parcheck Q y factor_h factor_k classes = Ok tt).
Proof.
  intros Hc Hs.
  assert (Hgiven : is_None classes = false).
  { destruct classes as [[] | items]; try reflexivity.
    (* [None] is a scalar: its array has no axis *)
    cbn in Hc. injection Hc as <-. discriminate Hs. }
  assert (Hget : forall y, get_classes y classes = Ok (class_arr, n)).
  { intros y. unfold get_classes. rewrite Hgiven, Hc. cbn. unfold len.
    rewrite Hs. reflexivity. }
  split; [exact Hget|].
  intros Q y h k Q_arr y_arr M Hch Hck Hh Hk Hn HQ Hy Hd.
  rewrite parcheck_factors_pass by auto using in_unit_interval_real.
  rewrite (check_arrays_classes _ _ _ _ _ _ _ Hn HQ Hy Hd), Hget.
  rewrite Nat.eqb_refl. reflexivity.
Qed.

Lemma explicit_classes_are_authoritative_witness :
  (forall y : ndarray,
      get_classes y classes_012 =
        Ok (NDArray [3%nat] (Ints [0; 1; 2]), 3%nat)) /\
  parcheck (Q_of_shape 2 3) y_57 (PyInt 0) (PyInt 1) classes_012 =
    Ok tt.
Proof.
  destruct (explicit_classes_are_authoritative classes_012
              (NDArray [3%nat] (Ints [0; 1; 2])) 3 [] eq_refl eq_refl)
    as [Hget Hcheck].
  split; [exact Hget|].
  refine (Hcheck (Q_of_shape 2 3) y_57 (PyInt 0) (PyInt 1) _ _ 2%nat I I _ _
            eq_refl eq_refl eq_refl eq_refl);
    apply int_in_unit_interval; lia.
Defined.

(** C10. Without explicit classes [get_classes] returns the distinct values
    of the label vector in ascending order, so that the unique labels depend
    on the values in [y] only, not on the order in which they appear. *)
Theorem inferred_classes_sorted (y : ndarray) (labels : list Z) :
  elems y = Ints labels ->
  exists unique_labels : list Z,
    get_classes y no_classes =
      Ok (vector (Ints unique_labels), length unique_labels) /\
    StronglySorted Z.lt unique_labels /\
    (forall z, In z unique_labels <-> In z labels) /\
    (forall (y' : ndarray) (labels' : list Z),
        elems y' = Ints labels' -> Permutation labels labels' ->
        get_classes y' no_classes = get_classes y no_classes).
Proof.
  intros Hl. exists (sort_unique Z.ltb Z.eqb labels).
  split; [| split; [| split]].
  - rewrite (get_classes_ints _ _ Hl), unique_length. reflexivity.
  - apply unique_sorted.
  - intros z. apply unique_in.
  - intros y' labels' Hl' HP.
    rewrite (get_classes_ints _ _ Hl'), (get_classes_ints _ _ Hl).
    rewrite <- !unique_length, (unique_permutation _ _ HP). reflexivity.
Qed.

Lemma inferred_classes_sorted_witness :
  exists unique_labels : list Z,
    get_classes (NDArray [4%nat] (Ints [2; 1; 0; 1])) no_classes =
      Ok (vector (Ints unique_labels), length unique_labels) /\
    StronglySorted Z.lt unique_labels /\
    (forall z, In z unique_labels <-> In z [2; 1; 0; 1]) /\
    (forall (y' : ndarray) (labels' : list Z),
        elems y' = Ints labels' -> Permutation [2; 1; 0; 1] labels' ->
        get_classes y' no_classes =
          get_classes (NDArray [4%nat] (Ints [2; 1; 0; 1])) no_classes).
Proof.
  exact (inferred_classes_sorted (NDArray [4%nat] (Ints [2; 1; 0; 1]))
           [2; 1; 0; 1] eq_refl).
Defined.

(** ** The order of the checks *)

Lemma out_of_range_spec (v : pyobj) :
  out_of_range v = false <-> in_unit_interval v.
Proof.
  unfold out_of_range, in_unit_interval, unit_interval.
  destruct (factor_value v) as [q |].
  - rewrite negb_false_iff, andb_true_iff, !Qle_bool_iff. split.
    + intros H. exists q. split; [reflexivity | exact H].
    + intros (q' & Hq & H). apply some_inj in Hq; subst q'. exact H.
  - split; [discriminate|]. intros (q & Hq & _). discriminate.
Qed.





(** ** The contract of [get_nparrays] *)

(** [None] in [Q] is no failure either: NumPy stores it as NaN. *)
Example get_nparrays_none_is_nan :
  get_nparrays Q_none y_0121 =
    Ok (NDArray [1%nat; 1%nat] (Floats [S754_nan]),
        NDArray [4%nat] (Ints [0; 1; 2; 1])).
Proof. reflexivity. Qed.


(** An [int] of [Q] too large for a float is no [TypeError] either: the
    [OverflowError] of [float] is not among the errors [get_nparrays]
    catches. *)
Example get_nparrays_overflow_is_not_wrapped :
  get_nparrays Q_huge y_0121 = Raise overflow_failure.
Proof. vm_compute. reflexivity. Qed.



(** * Further properties of the validator *)

(** ** What [parcheck] raises *)

Lemma chained_le_number (lo hi : float) (v : pyobj) :
  isinstance_float_int v = true -> exists b, chained_le lo v hi = Ok b.
Proof.
  unfold chained_le, float_le_obj, obj_le_float, bind.
  destruct v; try discriminate; intros _;
    match goal with
    | |- context [if ?c then _ else _] => destruct c
    end; eauto.
Qed.

(** Factors that pass the four tests of the source leave the verdict to the
    checks on the arrays. *)
Lemma parcheck_after_factors Q y h k classes :
  isinstance_float_int h = true -> isinstance_float_int k = true ->
  chained_le float_zero h float_one = Ok true ->
  chained_le float_zero k float_one = Ok true ->
  parcheck Q y h k classes = check_arrays Q y classes.
Proof.
  intros Hh Hk Hrh Hrk. unfold check_arrays, parcheck.
  rewrite Hh, Hk, Hrh, Hrk. reflexivity.
Qed.

Lemma py_lt_raise_kind (a b : scalar) (e : exn) :
  py_lt a b = Raise e -> exn_kind e = TypeError.
Proof.
  unfold py_lt. destruct (orderable a && orderable b); [discriminate|].
  intros H; injection H as <-; reflexivity.
Qed.

Lemma insert_obj_raise_kind (x : scalar) (l : list scalar) (e : exn) :
  insert_obj x l = Raise e -> exn_kind e = TypeError.
Proof.
  induction l as [| y l IH]; cbn; [discriminate|].
  destruct (py_lt y x) as [b | e'] eqn:Hlt; cbn.
  - destruct b; [|discriminate].
    destruct (insert_obj x l) as [r | e'']; cbn; [discriminate|].
    intros H; injection H as <-. now apply IH.
  - intros H; injection H as <-. eapply py_lt_raise_kind; eauto.
Qed.

Lemma sort_obj_raise_kind (l : list scalar) (e : exn) :
  sort_obj l = Raise e -> exn_kind e = TypeError.
Proof.
  induction l as [| x l IH]; cbn; [discriminate|].
  destruct (sort_obj l) as [s | e']; cbn.
  - apply insert_obj_raise_kind.
  - intros H; injection H as <-. now apply IH.
Qed.

Lemma get_classes_raise_kind (y : ndarray) (classes : arraylike) (e : exn) :
  get_classes y classes = Raise e -> type_or_value_error e.
Proof.
  unfold get_classes, type_or_value_error.
  destruct (is_None classes); cbn [negb].
  - destruct (np_unique y) as [u | e'] eqn:Hu; cbn.
    + destruct (np_unique_shape _ _ Hu) as [n Hn]. unfold len. rewrite Hn.
      discriminate.
    + intros H; injection H as <-. left.
      unfold np_unique in Hu. destruct (elems y) as [l | l | l | l];
        try discriminate.
      destruct (sort_obj l) as [s | e''] eqn:Hs; cbn in Hu; [discriminate|].
      injection Hu as <-. eapply sort_obj_raise_kind; eauto.
  - destruct (asanyarray classes) as [u | e'] eqn:Hc; cbn.
    + unfold len. destruct (shape u); cbn; [|discriminate].
      intros H; injection H as <-. now left.
    + apply asanyarray_raise in Hc as ->.
      intros H; injection H as <-. now right.
Qed.

(** The conversion of [Q] lets the [OverflowError] of [float] through. *)
Lemma get_nparrays_overflow_inv (Q y : arraylike) :
  get_nparrays Q y = Raise overflow_failure ->
  asanyarray_float64 Q = Raise overflow_failure.
Proof.
  destruct (asanyarray_float64 Q) as [qa | e'] eqn:HQ.
  - destruct (asanyarray y) as [ya | e'] eqn:Hy.
    + rewrite (proj2 (get_nparrays_ok Q y qa ya) (conj HQ Hy)). discriminate.
    + rewrite (get_nparrays_y_fails _ _ _ _ HQ Hy). discriminate.
  - destruct (asanyarray_float64_raise _ _ HQ) as [-> | [-> | ->]].
    + rewrite (get_nparrays_Q_fails _ _ _ HQ) by discriminate. discriminate.
    + rewrite (get_nparrays_Q_fails _ _ _ HQ) by discriminate. discriminate.
    + reflexivity.
Qed.

Lemma check_arrays_raise_kind Q y classes e :
  check_arrays Q y classes = Raise e ->
  type_or_value_error e \/
  (e = overflow_failure /\ asanyarray_float64 Q = Raise overflow_failure).
Proof.
  unfold type_or_value_error.
  destruct (get_nparrays Q y) as [[Q_arr y_arr] | e'] eqn:Hn.
  - destruct (Nat.eq_dec (ndim Q_arr) 2) as [HQ | HQ].
    2:{ rewrite (check_arrays_ndim_Q _ _ _ _ _ Hn HQ).
        intros H; injection H as <-. auto. }
    destruct (Nat.eq_dec (ndim y_arr) 1) as [Hy | Hy].
    2:{ rewrite (check_arrays_ndim_y _ _ _ _ _ Hn HQ Hy).
        intros H; injection H as <-. auto. }
    destruct (two_axes _ HQ) as (M & N & HsQ).
    destruct (one_axis _ Hy) as (L & Hsy).
    destruct (Nat.eq_dec M L) as [-> | Hne].
    2:{ rewrite (check_arrays_samples _ _ _ _ _ _ _ _ Hn HsQ Hsy Hne).
        intros H; injection H as <-. auto. }
    destruct (issubdtype_integer (dtype_of y_arr)) eqn:Hd.
    2:{ rewrite (check_arrays_label_type _ _ _ _ _ _ _ Hn HsQ Hsy Hd).
        intros H; injection H as <-. auto. }
    rewrite (check_arrays_classes _ _ _ _ _ _ _ Hn HsQ Hsy Hd).
    destruct (get_classes y_arr classes) as [[u n] | e'] eqn:Hc.
    + destruct (N =? n)%nat; [discriminate|].
      intros H; injection H as <-. auto.
    + intros H; injection H as <-. left.
      eapply get_classes_raise_kind; eauto.
  - rewrite (check_arrays_normalization _ _ _ _ Hn).
    intros H; injection H as <-.
    destruct (get_nparrays_raise _ _ _ Hn) as [[inner ->] | ->]; [auto|].
    right. split; [reflexivity|]. now apply (get_nparrays_overflow_inv Q y).
Qed.

(** X1. The errors of [parcheck] on array-likes built from [None],
    booleans, integers, floats and plain objects, with [None], a boolean,
    an integer, a float or a string as a factor.  It raises a [TypeError]
    or a [ValueError], the two kinds its docstring lists, with one
    exception: the [OverflowError] of [float] on an [int] of [Q] too large
    for a float is not among the kinds [get_nparrays] catches, and passes
    through unwrapped once the factors have passed.  Nothing else is
    raised: the comparisons of the range check are never applied to an
    object that is not a number, and [shape[0]], [shape[1]] are never read
    off an array with too few axes. *)
Theorem errors_raised_by_parcheck
    (Q y : arraylike) (factor_h factor_k : pyobj) (classes : arraylike) :
  (forall e : exn,
      parcheck Q y factor_h factor_k classes = Raise e ->
      exn_kind e = TypeError \/ exn_kind e = ValueError \/
      (e = overflow_failure /\
       asanyarray_float64 Q = Raise overflow_failure)) /\
  (canonical factor_h -> canonical factor_k ->
   in_unit_interval factor_h -> in_unit_interval factor_k ->
   asanyarray_float64 Q = Raise overflow_failure ->
   parcheck Q y factor_h factor_k classes = Raise overflow_failure).
Proof.
  split.
  - intros e.
    destruct (isinstance_float_int factor_h) eqn:Hh.
    2:{ apply not_real_number_isinstance in Hh.
        rewrite (parcheck_factor_h_type _ _ _ _ _ Hh).
        intros H; injection H as <-. now left. }
    destruct (isinstance_float_int factor_k) eqn:Hk.
    2:{ apply real_number_isinstance in Hh.
        apply not_real_number_isinstance in Hk.
        rewrite (parcheck_factor_k_type _ _ _ _ _ Hh Hk).
        intros H; injection H as <-. now left. }
    destruct (chained_le_number float_zero float_one _ Hh) as [bh Hbh].
    destruct (chained_le_number float_zero float_one _ Hk) as [bk Hbk].
    destruct bh.
    2:{ unfold parcheck. rewrite Hh, Hk, Hbh. cbn.
        intros H; injection H as <-. right; now left. }
    destruct bk.
    2:{ unfold parcheck. rewrite Hh, Hk, Hbh. cbn. rewrite Hbk. cbn.
        intros H; injection H as <-. right; now left. }
    rewrite (parcheck_after_factors _ _ _ _ _ Hh Hk Hbh Hbk).
    intros H. apply check_arrays_raise_kind in H as [[H | H] | H]; auto.
  - intros Hch Hck Hh Hk HQ.
    rewrite parcheck_factors_pass by auto using in_unit_interval_real.
    apply check_arrays_normalization. now apply get_nparrays_Q_overflows.
Qed.

Lemma errors_raised_by_parcheck_witness :
  parcheck Q_huge y_0121 (PyFloat float_half) (PyInt 1) no_classes =
    Raise overflow_failure.
Proof.
  refine (proj2 (errors_raised_by_parcheck Q_huge y_0121 (PyFloat float_half)
                   (PyInt 1) no_classes) eq_refl I in_unit_interval_half _ _).
  - apply int_in_unit_interval; lia.
  - vm_compute. reflexivity.
Defined.

(** ** What a call that passes guarantees *)

Lemma asanyarray_float64_ok_inv (a : arraylike) (arr : ndarray) :
  asanyarray_float64 a = Ok arr ->
  has_shape a (shape arr) /\ Forall float_convertible (leaves a) /\
  dtype_of arr = float64.
Proof.
  intros H.
  destruct (asanyarray_float64_spec a) as (Hok & Hragged & _).
  destruct (rectangular_dec a) as [[s Hs] | Hnot].
  - destruct (Forall_float_convertible_dec (leaves a)) as [Hconv | Hconv].
    + destruct (Hok s Hs Hconv) as (xs & _ & Harr).
      rewrite Harr in H. injection H as <-. auto.
    + unfold asanyarray_float64 in H.
      apply discover_shape_spec in Hs. rewrite Hs in H.
      destruct (to_float64_raise _ Hconv) as [Hr | Hr]; rewrite Hr in H;
        discriminate.
  - rewrite (Hragged Hnot) in H. discriminate.
Qed.

Lemma asanyarray_ok_inv (a : arraylike) (arr : ndarray) :
  asanyarray a = Ok arr ->
  has_shape a (shape arr) /\ elems arr = infer_buffer (leaves a).
Proof.
  intros H. destruct (asanyarray_spec a) as (Hok & Hragged).
  destruct (rectangular_dec a) as [[s Hs] | Hnot].
  - rewrite (Hok s Hs) in H. injection H as <-. auto.
  - rewrite (Hragged Hnot) in H. discriminate.
Qed.



Lemma traverse_length {A B : Type} (f : A -> option B) (l : list A)
    (bs : list B) :
  traverse f l = Some bs -> length bs = length l.
Proof.
  revert bs. induction l as [| a l IH]; intros bs; cbn.
  - intros H; apply some_inj in H; now subst.
  - destruct (f a) as [b |]; [|discriminate].
    destruct (traverse f l) as [bs' |]; [|discriminate].
    intros H; apply some_inj in H; subst. cbn. now rewrite (IH bs').
Qed.


Lemma distinct_count_le (labels : list Z) :
  (distinct_count labels <= length labels)%nat.
Proof.
  unfold distinct_count. apply NoDup_incl_length; [apply NoDup_nodup|].
  intros z Hz. now apply nodup_In in Hz.
Qed.

Lemma distinct_count_pos (labels : list Z) :
  labels <> [] -> (1 <= distinct_count labels)%nat.
Proof.
  unfold distinct_count. destruct labels as [| z labels]; [congruence|].
  intros _. assert (Hin : In z (nodup Z.eq_dec (z :: labels))).
  { apply nodup_In. now left. }
  destruct (nodup Z.eq_dec (z :: labels)); [contradiction | cbn; lia].
Qed.

(** The checks on the arrays pass only on a float matrix and an integer
    vector that agree in their number of samples. *)
Lemma check_arrays_ok_inv Q y classes :
  check_arrays Q y classes = Ok tt ->
  exists Q_arr y_arr M N labels n_classes unique_labels,
    get_nparrays Q y = Ok (Q_arr, y_arr) /\
    shape Q_arr = [M; N] /\ shape y_arr = [M] /\
    elems y_arr = Ints labels /\
    get_classes y_arr classes = Ok (unique_labels, n_classes) /\
    N = n_classes.
Proof.
  destruct (get_nparrays Q y) as [[Q_arr y_arr] | e'] eqn:Hn.
  2:{ rewrite (check_arrays_normalization _ _ _ _ Hn). discriminate. }
  destruct (Nat.eq_dec (ndim Q_arr) 2) as [HQ | HQ].
  2:{ rewrite (check_arrays_ndim_Q _ _ _ _ _ Hn HQ). discriminate. }
  destruct (Nat.eq_dec (ndim y_arr) 1) as [Hy | Hy].
  2:{ rewrite (check_arrays_ndim_y _ _ _ _ _ Hn HQ Hy). discriminate. }
  destruct (two_axes _ HQ) as (M & N & HsQ).
  destruct (one_axis _ Hy) as (L & Hsy).
  destruct (Nat.eq_dec M L) as [-> | Hne].
  2:{ rewrite (check_arrays_samples _ _ _ _ _ _ _ _ Hn HsQ Hsy Hne).
      discriminate. }
  destruct (issubdtype_integer (dtype_of y_arr)) eqn:Hd.
  2:{ rewrite (check_arrays_label_type _ _ _ _ _ _ _ Hn HsQ Hsy Hd).
      discriminate. }
  rewrite (check_arrays_classes _ _ _ _ _ _ _ Hn HsQ Hsy Hd).
  destruct (get_classes y_arr classes) as [[u n] | e'] eqn:Hc; [|discriminate].
  destruct (Nat.eqb_spec N n) as [-> |]; [|discriminate].
  intros _. unfold dtype_of in Hd.
  destruct (elems y_arr) as [l | labels | l | l] eqn:He; try discriminate.
  exists Q_arr, y_arr, L, n, labels, n, u. auto 10.
Qed.

(** A call that returns has passed the factor checks. *)
Lemma parcheck_ok_factors Q y h k classes :
  canonical h -> canonical k ->
  parcheck Q y h k classes = Ok tt ->
  in_unit_interval h /\ in_unit_interval k /\
  check_arrays Q y classes = Ok tt.
Proof.
  intros Hch Hck Hok.
  destruct (isinstance_float_int h) eqn:Hh.
  2:{ apply not_real_number_isinstance in Hh.
      rewrite (parcheck_factor_h_type _ _ _ _ _ Hh) in Hok. discriminate. }
  destruct (isinstance_float_int k) eqn:Hk.
  2:{ apply real_number_isinstance in Hh.
      apply not_real_number_isinstance in Hk.
      rewrite (parcheck_factor_k_type _ _ _ _ _ Hh Hk) in Hok.
      discriminate. }
  apply real_number_isinstance in Hh, Hk.
  destruct (out_of_range h) eqn:Hoh.
  { rewrite parcheck_factor_h_range in Hok; auto; [discriminate|].
    rewrite <- out_of_range_spec. congruence. }
  apply out_of_range_spec in Hoh.
  destruct (out_of_range k) eqn:Hok'.
  { rewrite parcheck_factor_k_range in Hok; auto; [discriminate|].
    rewrite <- out_of_range_spec. congruence. }
  apply out_of_range_spec in Hok'.
  rewrite parcheck_factors_pass in Hok by assumption. auto.
Qed.



Lemma get_classes_explicit_inv (y : ndarray) (classes : arraylike)
    (unique_labels : ndarray) (n : nat) :
  is_None classes = false ->
  get_classes y classes = Ok (unique_labels, n) ->
  asanyarray classes = Ok unique_labels /\
  exists rest, shape unique_labels = n :: rest.
Proof.
  intros Hgiven. unfold get_classes. rewrite Hgiven. cbn [negb].
  destruct (asanyarray classes) as [u |]; cbn; [|discriminate].
  unfold len. destruct (shape u) as [| m rest] eqn:Hs; cbn; [discriminate|].
  intros H; injection H as <- <-. split; [reflexivity|].
  exists rest. exact Hs.
Qed.

(** X3. With explicit classes, a call that returns guarantees the same of
    the factors, of [Q] and of [y], and that [Q] has as many columns as the
    class array is long along its first axis; it guarantees nothing about
    the labels being among the classes. *)
Theorem validated_with_explicit_classes
    (Q y : arraylike) (factor_h factor_k : pyobj) (classes : arraylike) :
  canonical factor_h -> canonical factor_k ->
  is_None classes = false ->
  parcheck Q y factor_h factor_k classes = Ok tt ->
  in_unit_interval factor_h /\ in_unit_interval factor_k /\
  exists (M N : nat) (labels : list Z) (class_arr : ndarray)
         (rest : list nat),
    has_shape Q [M; N] /\ Forall float_convertible (leaves Q) /\
    has_shape y [M] /\ infer_buffer (leaves y) = Ints labels /\
    asanyarray classes = Ok class_arr /\ shape class_arr = N :: rest.
Proof.
  intros Hch Hck Hgiven Hok.
  destruct (parcheck_ok_factors _ _ _ _ _ Hch Hck Hok) as (Hh & Hk & Harr).
  split; [exact Hh|]. split; [exact Hk|].
  destruct (check_arrays_ok_inv _ _ _ Harr)
    as (Q_arr & y_arr & M & N & labels & n & u
        & Hn & HsQ & Hsy & He & Hc & HN).
  apply get_nparrays_ok in Hn as [HQa Hya].
  apply asanyarray_float64_ok_inv in HQa as (HQshape & HQconv & _).
  apply asanyarray_ok_inv in Hya as (Hyshape & Hyelems).
  rewrite HsQ in HQshape. rewrite Hsy in Hyshape.
  rewrite He in Hyelems. symmetry in Hyelems.
  destruct (get_classes_explicit_inv _ _ _ _ Hgiven Hc) as (Hcl & rest & Hs).
  subst n. exists M, N, labels, u, rest. auto 10.
Qed.

Lemma validated_with_explicit_classes_witness :
  in_unit_interval (PyInt 0) /\ in_unit_interval (PyInt 1) /\
  exists (M N : nat) (labels : list Z) (class_arr : ndarray)
         (rest : list nat),
    has_shape (Q_of_shape 2 3) [M; N] /\
    Forall float_convertible (leaves (Q_of_shape 2 3)) /\
    has_shape y_57 [M] /\ infer_buffer (leaves y_57) = Ints labels /\
    asanyarray classes_012 = Ok class_arr /\ shape class_arr = N :: rest.
Proof.
  exact (validated_with_explicit_classes (Q_of_shape 2 3) y_57
           (PyInt 0) (PyInt 1) classes_012 I I eq_refl eq_refl).
Defined.

(** ** What [parcheck] does not look at *)

(** X4. [parcheck] never looks at the entries of [Q]: two matrices of the
    same shape whose entries NumPy stores as floats get the same verdict,
    whatever the other arguments are.  In particular no entry is required
    to be finite, non-negative or at most 1. *)
Theorem parcheck_ignores_entries_of_Q
    (Q Q' y : arraylike) (factor_h factor_k : pyobj) (classes : arraylike)
    (s : list nat) :
  has_shape Q s -> Forall float_convertible (leaves Q) ->
  has_shape Q' s -> Forall float_convertible (leaves Q') ->
  parcheck Q y factor_h factor_k classes =
  parcheck Q' y factor_h factor_k classes.
Proof.
  intros HQ Hconv HQ' Hconv'.
  destruct (asanyarray_float64_spec Q) as (Hok & _).
  destruct (asanyarray_float64_spec Q') as (Hok' & _).
  destruct (Hok s HQ Hconv) as (xs & _ & Harr).
  destruct (Hok' s HQ' Hconv') as (xs' & _ & Harr').
  unfold parcheck, get_nparrays, try_except_type_value.
  rewrite Harr, Harr'.
  destruct (isinstance_float_int factor_h); [|reflexivity].
  destruct (isinstance_float_int factor_k); [|reflexivity].
  cbn [negb].
  destruct (chained_le float_zero factor_h float_one) as [[] |];
    [| reflexivity ..].
  destruct (chained_le float_zero factor_k float_one) as [[] |];
    [| reflexivity ..].
  destruct (asanyarray y) as [y_arr | e]; [|reflexivity].
  reflexivity.
Qed.

Lemma parcheck_ignores_entries_of_Q_witness :
  parcheck Q_none (flat_list [NoneLeaf]) (PyInt 0) (PyInt 1) no_classes =
  parcheck (Q_of_shape 1 1) (flat_list [NoneLeaf]) (PyInt 0) (PyInt 1)
    no_classes.
Proof.
  apply (parcheck_ignores_entries_of_Q Q_none (Q_of_shape 1 1) _ _ _ _
           [1%nat; 1%nat]).
  - apply discover_shape_spec. reflexivity.
  - repeat constructor.
  - apply (has_shape_Q_of_shape 0 0).
  - repeat constructor.
Defined.

(** ** A malformed [classes] argument *)

(** X5. [get_classes] does not wrap the failures of an explicit [classes]
    argument, as [get_nparrays] does for [Q] and [y]: a scalar other than
    [None] makes [len] raise its [TypeError], a ragged list makes NumPy
    raise its [ValueError], and [parcheck] lets either through once the
    checks before the class count have passed. *)
Theorem malformed_classes_are_not_wrapped
    (Q y : arraylike) (factor_h factor_k : pyobj) (classes : arraylike)
    (Q_arr y_arr : ndarray) (M N : nat) :
  canonical factor_h -> canonical factor_k ->
  in_unit_interval factor_h -> in_unit_interval factor_k ->
  get_nparrays Q y = Ok (Q_arr, y_arr) ->
  shape Q_arr = [M; N] -> shape y_arr = [M] ->
  issubdtype_integer (dtype_of y_arr) = true ->
  (forall s, classes = Item s -> s <> NoneLeaf ->
     get_classes y_arr classes = Raise (Exn TypeError [OfFailure UnsizedLen]) /\
     parcheck Q y factor_h factor_k classes =
       Raise (Exn TypeError [OfFailure UnsizedLen])) /\
  (~ rectangular classes ->
     get_classes y_arr classes = Raise ragged_failure /\
     parcheck Q y factor_h factor_k classes = Raise ragged_failure).
Proof.
  intros Hch Hck Hh Hk Hn HQ Hy Hd.
  rewrite parcheck_factors_pass by auto using in_unit_interval_real.
  rewrite (check_arrays_classes _ _ _ _ _ _ _ Hn HQ Hy Hd).
  split.
  - intros s -> Hs.
    assert (Hget : get_classes y_arr (Item s) =
                   Raise (Exn TypeError [OfFailure UnsizedLen])).
    { destruct s; try contradiction; reflexivity. }
    rewrite Hget. split; reflexivity.
  - intros Hragged.
    assert (Hget : get_classes y_arr classes = Raise ragged_failure).
    { unfold get_classes.
      assert (is_None classes = false) as ->.
      { destruct classes as [[] | items]; try reflexivity.
        exfalso. apply Hragged. exists []. constructor. }
      cbn [negb]. rewrite (proj2 (asanyarray_spec classes) Hragged).
      reflexivity. }
    rewrite Hget. split; reflexivity.
Qed.

Lemma malformed_classes_are_not_wrapped_witness :
  parcheck (Q_of_shape 4 3) y_0121 (PyInt 0) (PyInt 1)
    (int_item 3) = Raise (Exn TypeError [OfFailure UnsizedLen]) /\
  parcheck (Q_of_shape 4 3) y_0121 (PyInt 0) (PyInt 1) Q_ragged =
    Raise ragged_failure.
Proof.
  assert (H0 : in_unit_interval (PyInt 0)) by (apply int_in_unit_interval; lia).
  assert (H1 : in_unit_interval (PyInt 1)) by (apply int_in_unit_interval; lia).
  edestruct (malformed_classes_are_not_wrapped (Q_of_shape 4 3) y_0121
               (PyInt 0) (PyInt 1) (int_item 3))
    as [Hscalar _];
    [exact I | exact I | exact H0 | exact H1
     | reflexivity | reflexivity | reflexivity | reflexivity |].
  edestruct (malformed_classes_are_not_wrapped (Q_of_shape 4 3) y_0121
               (PyInt 0) (PyInt 1) Q_ragged)
    as [_ Hragged];
    [exact I | exact I | exact H0 | exact H1
     | reflexivity | reflexivity | reflexivity | reflexivity |].
  split.
  - apply (Hscalar _ eq_refl). discriminate.
  - apply Hragged. intros H. apply rectangular_discover in H. now apply H.
Defined.

(** ** Factors at the edges *)




(** ** Which labels are integers *)

Lemma traverse_some {A B : Type} (f : A -> option B) (l : list A) :
  Forall (fun a => f a <> None) l -> exists bs, traverse f l = Some bs.
Proof.
  induction 1 as [| a l Ha _ [bs IH]]; cbn; [eauto|].
  destruct (f a) as [b |]; [|congruence]. rewrite IH. eauto.
Qed.

Lemma traverse_some_inv {A B : Type} (f : A -> option B) (l : list A)
    (bs : list B) :
  traverse f l = Some bs -> Forall (fun a => f a <> None) l.
Proof.
  revert bs. induction l as [| a l IH]; intros bs; cbn; [constructor|].
  destruct (f a) as [b |] eqn:Ha; [|discriminate].
  destruct (traverse f l) as [bs' |]; [|discriminate].
  intros _. constructor; [congruence | eauto].
Qed.

Lemma traverse_none {A B : Type} (f : A -> option B) (l : list A) :
  Exists (fun a => f a = None) l -> traverse f l = None.
Proof.
  induction 1 as [a l Ha | a l _ IH]; cbn.
  - now rewrite Ha.
  - rewrite IH. now destruct (f a).
Qed.

Lemma traverse_none_inv {A B : Type} (f : A -> option B) (l : list A) :
  traverse f l = None -> Exists (fun a => f a = None) l.
Proof.
  induction l as [| a l IH]; cbn; [discriminate|].
  destruct (f a) as [b |] eqn:Ha; [|now left].
  destruct (traverse f l); [discriminate|]. intros _. right. now apply IH.
Qed.

Lemma traverse_weaken {A B : Type} (f g : A -> option B) (l : list A)
    (bs : list B) :
  (forall a b, f a = Some b -> g a = Some b) ->
  traverse f l = Some bs -> traverse g l = Some bs.
Proof.
  intros Hfg. revert bs. induction l as [| a l IH]; intros bs; cbn; [auto|].
  destruct (f a) as [b |] eqn:Ha; [|discriminate].
  destruct (traverse f l) as [bs' |]; [|discriminate].
  intros H. rewrite (Hfg _ _ Ha), (IH bs' eq_refl). exact H.
Qed.

Lemma fits_uint64_only_not_int64 (n : Z) :
  fits_uint64_only n = true -> fits_int64 n = false.
Proof.
  unfold fits_uint64_only, fits_int64. intros H.
  apply andb_true_iff in H as [H _]. apply Z.ltb_lt in H.
  apply andb_false_iff. right. now apply Z.leb_gt.
Qed.

Lemma leaf_int64_int (s : scalar) (z : Z) :
  leaf_int64 s = Some z -> leaf_int s = Some z.
Proof.
  destruct s as [| b | n | x | id]; cbn; try discriminate; auto.
  destruct (fits_int64 n); [auto | discriminate].
Qed.

Lemma leaf_uint64_int (s : scalar) (z : Z) :
  leaf_uint64 s = Some z -> leaf_int s = Some z.
Proof.
  destruct s as [| b | n | x | id]; cbn; try discriminate; auto.
  destruct (fits_uint64_only n); [auto | discriminate].
Qed.

(** The leaves an int64 array takes, and those a uint64 array takes. *)
Lemma leaf_int64_some (s : scalar) :
  leaf_int64 s <> None <-> int_or_bool s /\ small_label s.
Proof.
  destruct s as [| b | n | x | id]; cbn; try tauto;
    try (split; [|discriminate]; auto).
  destruct (fits_int64 n); split; try tauto; try discriminate.
  intros [_ H]; discriminate.
Qed.

Lemma leaf_uint64_some (s : scalar) :
  leaf_uint64 s <> None <-> int_or_bool s /\ large_label s.
Proof.
  destruct s as [| b | n | x | id]; cbn; try tauto;
    try (split; [|discriminate]; auto).
  destruct (fits_uint64_only n); split; try tauto; try discriminate.
  intros [_ H]; discriminate.
Qed.

Lemma not_all_bools (ls : list scalar) :
  Forall int_or_bool ls ->
  (Exists is_int_leaf ls <-> traverse leaf_bool ls = None).
Proof.
  intros Hall. rewrite Forall_forall in Hall. split.
  - intros Hint. apply traverse_none.
    apply Exists_exists in Hint as (s & Hs & Hi).
    apply Exists_exists. exists s. split; [exact Hs|].
    destruct s; try contradiction; reflexivity.
  - intros Hbool. apply traverse_none_inv in Hbool.
    apply Exists_exists in Hbool as (s & Hs & Hnone).
    apply Exists_exists. exists s. split; [exact Hs|].
    specialize (Hall s Hs).
    destruct s; cbn in *; try contradiction; try discriminate; exact I.
Qed.

(** NumPy infers an integer dtype exactly for integral labels. *)
Lemma infer_buffer_ints (ls : list scalar) :
  integral_labels ls <-> exists labels, infer_buffer ls = Ints labels.
Proof.
  unfold integral_labels. split.
  - intros (Hall & Hint & Hsize).
    apply (not_all_bools _ Hall) in Hint.
    destruct ls as [| s ls]; [discriminate|].
    unfold infer_buffer. rewrite Hint.
    destruct Hsize as [Hsmall | Hlarge].
    + destruct (traverse_some leaf_int64 (s :: ls)) as [labels Hl].
      { rewrite Forall_forall in *. intros a Ha.
        apply leaf_int64_some. auto. }
      exists labels. now rewrite Hl.
    + assert (H64 : traverse leaf_int64 (s :: ls) = None).
      { apply traverse_none. apply (not_all_bools _ Hall) in Hint.
        apply Exists_exists in Hint as (a & Ha & Hi).
        apply Exists_exists. exists a. split; [exact Ha|].
        rewrite Forall_forall in Hlarge. specialize (Hlarge a Ha).
        destruct a; try contradiction. cbn in *.
        now rewrite (fits_uint64_only_not_int64 _ Hlarge). }
      destruct (traverse_some leaf_uint64 (s :: ls)) as [labels Hl].
      { rewrite Forall_forall in *. intros a Ha.
        apply leaf_uint64_some. auto. }
      exists labels. now rewrite H64, Hl.
  - intros [labels H]. unfold infer_buffer in H.
    destruct ls as [| s ls]; [discriminate|].
    destruct (traverse leaf_bool (s :: ls)) eqn:Hbool; [discriminate|].
    destruct (traverse leaf_int64 (s :: ls)) as [ns |] eqn:H64.
    { apply traverse_some_inv in H64.
      assert (Hall : Forall int_or_bool (s :: ls)).
      { eapply Forall_impl; [|exact H64].
        intros a Ha. now apply leaf_int64_some in Ha. }
      split; [exact Hall|]. split; [now apply not_all_bools|].
      left. eapply Forall_impl; [|exact H64].
      intros a Ha. now apply leaf_int64_some in Ha. }
    destruct (traverse leaf_uint64 (s :: ls)) as [ns |] eqn:Hu64.
    { apply traverse_some_inv in Hu64.
      assert (Hall : Forall int_or_bool (s :: ls)).
      { eapply Forall_impl; [|exact Hu64].
        intros a Ha. now apply leaf_uint64_some in Ha. }
      split; [exact Hall|]. split; [now apply not_all_bools|].
      right. eapply Forall_impl; [|exact Hu64].
      intros a Ha. now apply leaf_uint64_some in Ha. }
    destruct (traverse leaf_float (s :: ls)); discriminate.
Qed.

Lemma infer_buffer_bools (ls : list scalar) :
  ls <> [] -> Forall is_bool_leaf ls ->
  buffer_dtype (infer_buffer ls) = bool_.
Proof.
  intros Hne Hall. destruct (traverse_some leaf_bool ls) as [bs Hbs].
  { eapply Forall_impl; [|exact Hall].
    intros s Hs. destruct s; try contradiction; discriminate. }
  unfold infer_buffer. destruct ls; [congruence|]. now rewrite Hbs.
Qed.

(** An [int] outside the int64 and uint64 ranges makes an array of Python
    integers an object array. *)
Lemma infer_buffer_huge (ls : list scalar) :
  Forall int_or_bool ls -> Exists huge_label ls ->
  buffer_dtype (infer_buffer ls) = object_.
Proof.
  intros Hall Hhuge.
  assert (Hfits : exists n, In (IntLeaf n) ls /\
                    fits_int64 n = false /\ fits_uint64_only n = false).
  { apply Exists_exists in Hhuge as (s & Hs & Hn).
    destruct s as [| b | n | x | id]; try contradiction.
    exists n. split; [exact Hs|]. cbn in Hn.
    unfold fits_int64, fits_uint64_only, int64_min, int64_max, uint64_max
      in *.
    destruct Hn as [Hn | Hn].
    - split; apply andb_false_iff; left;
        [apply Z.leb_gt | apply Z.ltb_ge]; lia.
    - split; apply andb_false_iff; right; apply Z.leb_gt; lia. }
  destruct Hfits as (n & Hin & H64 & Hu64).
  assert (Hnone : forall (B : Type) (f : scalar -> option B),
             f (IntLeaf n) = None -> traverse f ls = None).
  { intros B f Hf. apply traverse_none. apply Exists_exists.
    now exists (IntLeaf n). }
  unfold infer_buffer. destruct ls as [| s ls]; [contradiction|].
  rewrite (Hnone _ leaf_bool eq_refl).
  rewrite (Hnone _ leaf_int64) by (cbn; now rewrite H64).
  rewrite (Hnone _ leaf_uint64) by (cbn; now rewrite Hu64).
  rewrite (Hnone _ leaf_float) by (cbn; now rewrite H64, Hu64).
  reflexivity.
Qed.

(** X7. Which label lists pass the label type check, whatever the classes:
    with factors in range, [Q] a matrix of M rows and [y] a list of M
    leaves, the check passes exactly when NumPy stores the labels in an
    integer array: every label is a Python integer, at least one is not a
    [bool], and the [int]s all fit an int64 or all fit a uint64 only.
    Every other list is rejected with the [TypeError] that names the dtype
    NumPy inferred: a non-empty list of booleans with dtype [bool],
    although a [bool] is accepted as a factor, and a list of Python
    integers with an [int] outside the int64 and uint64 ranges with dtype
    [object]. *)
Theorem labels_pass_iff_integer_array
    (Q y : arraylike) (factor_h factor_k : pyobj) (classes : arraylike)
    (M N : nat) :
  canonical factor_h -> canonical factor_k ->
  in_unit_interval factor_h -> in_unit_interval factor_k ->
  has_shape Q [M; N] -> Forall float_convertible (leaves Q) ->
  has_shape y [M] ->
  (integral_labels (leaves y) <->
   forall d, parcheck Q y factor_h factor_k classes <>
             Raise (label_type_error d)) /\
  (~ integral_labels (leaves y) ->
   parcheck Q y factor_h factor_k classes =
     Raise (label_type_error (buffer_dtype (infer_buffer (leaves y))))) /\
  (leaves y <> [] -> Forall is_bool_leaf (leaves y) ->
   parcheck Q y factor_h factor_k classes = Raise (label_type_error bool_)) /\
  (Forall int_or_bool (leaves y) -> Exists huge_label (leaves y) ->
   parcheck Q y factor_h factor_k classes =
     Raise (label_type_error object_)).
Proof.
  intros Hch Hck Hh Hk HQ Hconv Hy.
  rewrite parcheck_factors_pass by auto using in_unit_interval_real.
  destruct (get_nparrays_well_formed Q y _ _ HQ Hconv Hy) as (xs & _ & Hn).
  set (Q_arr := NDArray [M; N] (Floats xs)) in Hn.
  set (y_arr := NDArray [M] (infer_buffer (leaves y))) in Hn.
  assert (Hrejected :
    ~ integral_labels (leaves y) ->
    check_arrays Q y classes =
      Raise (label_type_error (buffer_dtype (infer_buffer (leaves y))))).
  { intros Hnot.
    apply (check_arrays_label_type _ _ _ Q_arr y_arr M N Hn eq_refl eq_refl).
    unfold dtype_of, y_arr; cbn [elems].
    destruct (infer_buffer (leaves y)) as [l | l | l | l] eqn:Hb;
      try reflexivity.
    exfalso. apply Hnot. apply infer_buffer_ints. eauto. }
  assert (Haccepted :
    integral_labels (leaves y) ->
    forall d, check_arrays Q y classes <> Raise (label_type_error d)).
  { intros Hint d. apply infer_buffer_ints in Hint as [labels Hl].
    rewrite (check_arrays_classes _ _ _ Q_arr y_arr M N Hn eq_refl eq_refl)
      by (apply (integer_dtype_of_ints _ labels); exact Hl).
    destruct (get_classes y_arr classes) as [[u n] | e] eqn:Hc.
    - destruct (N =? n)%nat; discriminate.
    - intros H; injection H as ->.
      destruct (get_classes_raise _ _ _ Hc) as [f Hf]. discriminate Hf. }
  split; [split; [exact Haccepted|] | split; [exact Hrejected | split]].
  - intros Hnever.
    destruct (infer_buffer (leaves y)) as [l | l | l | l] eqn:Hb;
      try (apply infer_buffer_ints; eauto; fail);
      exfalso; eapply Hnever; apply Hrejected;
      intros Hint; apply infer_buffer_ints in Hint as [labels Hl];
      congruence.
  - intros Hne Hbools.
    rewrite <- (infer_buffer_bools _ Hne Hbools). apply Hrejected.
    intros (_ & Hint & _). apply Exists_exists in Hint as (s & Hs & Hi).
    rewrite Forall_forall in Hbools. specialize (Hbools s Hs).
    destruct s; contradiction.
  - intros Hall Hhuge.
    rewrite <- (infer_buffer_huge _ Hall Hhuge). apply Hrejected.
    intros Hint. apply infer_buffer_ints in Hint as [labels Hl].
    pose proof (infer_buffer_huge _ Hall Hhuge) as Hobj.
    rewrite Hl in Hobj. cbn in Hobj.
    destruct (forallb fits_int64 labels); discriminate.
Qed.

Lemma labels_pass_iff_integer_array_witness :
  parcheck (Q_of_shape 2 2) (flat_list [BoolLeaf true; BoolLeaf false])
    (PyBool true) (PyBool false) no_classes =
    Raise (label_type_error bool_) /\
  parcheck (Q_of_shape 1 1) y_huge (PyBool true) (PyBool false) no_classes =
    Raise (label_type_error object_).
Proof.
  split.
  - refine (proj1 (proj2 (proj2 (labels_pass_iff_integer_array
                     (Q_of_shape 2 2)
                     (flat_list [BoolLeaf true; BoolLeaf false])
                     (PyBool true) (PyBool false) no_classes 2 2 I I
                     (in_unit_interval_bool true)
                     (in_unit_interval_bool false)
                     (has_shape_Q_of_shape 1 1) _ _))) _ _).
    + repeat constructor.
    + apply discover_shape_spec. reflexivity.
    + discriminate.
    + repeat constructor.
  - refine (proj2 (proj2 (proj2 (labels_pass_iff_integer_array
                     (Q_of_shape 1 1) y_huge
                     (PyBool true) (PyBool false) no_classes 1 1 I I
                     (in_unit_interval_bool true)
                     (in_unit_interval_bool false)
                     (has_shape_Q_of_shape 0 0) _ _))) _ _).
    + repeat constructor.
    + apply discover_shape_spec. reflexivity.
    + repeat constructor.
    + left. right. reflexivity.
Defined.

(** ** Resolving the classes *)

Lemma unique_idempotent (l : list Z) :
  sort_unique Z.ltb Z.eqb (sort_unique Z.ltb Z.eqb l) =
  sort_unique Z.ltb Z.eqb l.
Proof.
  apply strictly_sorted_unique; try apply unique_sorted.
  intros z. apply unique_in.
Qed.

(** X8. Resolving the classes of labels that are already resolved changes
    nothing: the unique labels [get_classes] infers are their own unique
    labels, with the same count. *)
Theorem get_classes_is_idempotent
    (y unique_labels : ndarray) (labels : list Z) (n_classes : nat) :
  elems y = Ints labels ->
  get_classes y no_classes = Ok (unique_labels, n_classes) ->
  get_classes unique_labels no_classes = Ok (unique_labels, n_classes).
Proof.
  intros Hl Hget. rewrite (get_classes_ints _ _ Hl) in Hget.
  injection Hget as <- <-.
  rewrite (get_classes_ints (vector (Ints (sort_unique Z.ltb Z.eqb labels)))
             (sort_unique Z.ltb Z.eqb labels) eq_refl).
  rewrite unique_idempotent.
  rewrite <- (unique_length (sort_unique Z.ltb Z.eqb labels)).
  rewrite unique_idempotent, unique_length. reflexivity.
Qed.

Lemma get_classes_is_idempotent_witness :
  get_classes (NDArray [3%nat] (Ints [0; 1; 2])) no_classes =
    Ok (NDArray [3%nat] (Ints [0; 1; 2]), 3%nat).
Proof.
  exact (get_classes_is_idempotent (NDArray [2%nat; 2%nat] (Ints [2; 1; 0; 1]))
           (NDArray [3%nat] (Ints [0; 1; 2])) [2; 1; 0; 1] 3 eq_refl eq_refl).
Defined.

(** X9. The class count inferred from integer labels is at most the number
    of labels, and it is zero exactly when there is no label at all:
    [np.unique] of an empty array is empty and nothing is raised. *)
Theorem unique_label_count_bounds
    (y unique_labels : ndarray) (labels : list Z) (n_classes : nat) :
  elems y = Ints labels ->
  get_classes y no_classes = Ok (unique_labels, n_classes) ->
  (n_classes <= length labels)%nat /\
  (n_classes = 0%nat <-> labels = []).
Proof.
  intros Hl Hget. rewrite (get_classes_ints _ _ Hl) in Hget.
  injection Hget as _ <-. split; [apply distinct_count_le|].
  split.
  - intros H0. destruct labels as [| z labels]; [reflexivity|].
    pose proof (distinct_count_pos (z :: labels)) as Hpos.
    specialize (Hpos ltac:(discriminate)). lia.
  - intros ->. reflexivity.
Qed.

Lemma unique_label_count_bounds_witness :
  (3 <= length [2; 1; 0; 1])%nat /\ (3%nat = 0%nat <-> [2; 1; 0; 1] = []).
Proof.
  exact (unique_label_count_bounds (NDArray [4%nat] (Ints [2; 1; 0; 1]))
           (NDArray [3%nat] (Ints [0; 1; 2])) [2; 1; 0; 1] 3 eq_refl eq_refl).
Defined.

Lemma given_classes_not_None (classes : arraylike) (class_arr : ndarray)
    (n : nat) (rest : list nat) :
  asanyarray classes = Ok class_arr -> shape class_arr = n :: rest ->
  is_None classes = false.
Proof.
  intros Hc Hs. destruct classes as [[] | items]; try reflexivity.
  cbn in Hc. injection Hc as <-. discriminate Hs.
Qed.

Lemma get_classes_given (y : ndarray) (classes : arraylike)
    (class_arr : ndarray) (n : nat) (rest : list nat) :
  asanyarray classes = Ok class_arr -> shape class_arr = n :: rest ->
  get_classes y classes = Ok (class_arr, n).
Proof.
  intros Hc Hs. unfold get_classes.
  rewrite (given_classes_not_None _ _ _ _ Hc Hs), Hc. cbn.
  unfold len. rewrite Hs. reflexivity.
Qed.



Lemma flat_list_leaves (ls : list scalar) : leaves (flat_list ls) = ls.
Proof.
  unfold flat_list. cbn. induction ls as [| s ls IH]; cbn; congruence.
Qed.

Lemma flat_list_shape (ls : list scalar) :
  has_shape (flat_list ls) [length ls].
Proof.
  unfold flat_list. destruct ls as [| s ls]; cbn; [constructor|].
  rewrite <- (length_map Item ls). constructor; [constructor|].
  apply Forall_forall. intros b Hb. apply in_map_iff in Hb as (x & <- & _).
  constructor.
Qed.

Lemma asanyarray_flat_list (ls : list scalar) :
  asanyarray (flat_list ls) = Ok (NDArray [length ls] (infer_buffer ls)).
Proof.
  rewrite (proj1 (asanyarray_spec _) _ (flat_list_shape ls)).
  now rewrite flat_list_leaves.
Qed.

Lemma duplicates_shorten (values : list Z) :
  ~ NoDup values -> (distinct_count values < length values)%nat.
Proof.
  unfold distinct_count. induction values as [| z values IH]; intros Hdup.
  - exfalso. apply Hdup. constructor.
  - cbn. destruct (in_dec Z.eq_dec z values) as [Hin | Hnotin].
    + pose proof (distinct_count_le values). unfold distinct_count in *. lia.
    + cbn. apply -> Nat.succ_lt_mono. apply IH.
      intros Hnodup. apply Hdup. now constructor.
Qed.

(** X11. An explicit class list is taken as it is: its class count is the
    number of its entries, duplicates included.  Nothing checks that the
    classes are distinct, so a list of integer classes with a repeated
    entry counts more classes than it has distinct values. *)
Theorem explicit_classes_are_not_deduplicated
    (y : ndarray) (entries : list scalar) :
  get_classes y (flat_list entries) =
    Ok (NDArray [length entries] (infer_buffer entries), length entries) /\
  (forall values : list Z,
      traverse leaf_int entries = Some values -> ~ NoDup values ->
      (distinct_count values < length entries)%nat).
Proof.
  split.
  - apply (get_classes_given _ _ _ _ []); [apply asanyarray_flat_list|].
    reflexivity.
  - intros values Hv Hdup. rewrite <- (traverse_length _ _ _ Hv).
    now apply duplicates_shorten.
Qed.

Lemma explicit_classes_are_not_deduplicated_witness :
  (distinct_count [0; 0; 1]%Z < 3)%nat.
Proof.
  refine (proj2 (explicit_classes_are_not_deduplicated
                   (NDArray [1%nat] (Ints [0]))
                   [IntLeaf 0; IntLeaf 0;
                    IntLeaf 1]) [0; 0; 1] eq_refl _).
  intros H. inversion H as [| ? ? Hin _]. apply Hin. now left.
Defined.

(** ** The order of the samples *)

Lemma traverse_perm {A B : Type} (f : A -> option B) (l l' : list A) :
  Permutation l l' ->
  match traverse f l, traverse f l' with
  | Some bs, Some bs' => Permutation bs bs'
  | None, None => True
  | _, _ => False
  end.
Proof.
  induction 1 as [| a l l' _ IH | a b l | l l' l'' _ IH1 _ IH2]; cbn.
  - constructor.
  - destruct (f a); destruct (traverse f l), (traverse f l'); auto.
  - destruct (f a), (f b); destruct (traverse f l); auto.
    apply perm_swap.
  - destruct (traverse f l), (traverse f l'), (traverse f l'');
      try contradiction; auto.
    now transitivity l1.
Qed.

(** dtype inference does not depend on the order of the leaves. *)
Lemma infer_buffer_perm (ls ls' : list scalar) :
  Permutation ls ls' -> buffer_perm (infer_buffer ls) (infer_buffer ls').
Proof.
  intros HP. unfold infer_buffer.
  destruct ls as [| s ls].
  { apply Permutation_nil in HP as ->. cbn. constructor. }
  destruct ls' as [| s' ls'].
  { symmetry in HP. apply Permutation_nil in HP. discriminate. }
  pose proof (traverse_perm leaf_bool _ _ HP) as Hb.
  pose proof (traverse_perm leaf_int64 _ _ HP) as Hi.
  pose proof (traverse_perm leaf_uint64 _ _ HP) as Hu.
  pose proof (traverse_perm leaf_float _ _ HP) as Hf.
  destruct (traverse leaf_bool (s :: ls)), (traverse leaf_bool (s' :: ls'));
    try contradiction; [exact Hb|].
  destruct (traverse leaf_int64 (s :: ls)),
           (traverse leaf_int64 (s' :: ls'));
    try contradiction; [exact Hi|].
  destruct (traverse leaf_uint64 (s :: ls)),
           (traverse leaf_uint64 (s' :: ls'));
    try contradiction; [exact Hu|].
  destruct (traverse leaf_float (s :: ls)), (traverse leaf_float (s' :: ls'));
    try contradiction; [exact Hf | exact HP].
Qed.

Lemma forallb_perm {A : Type} (f : A -> bool) (l l' : list A) :
  Permutation l l' -> forallb f l = forallb f l'.
Proof.
  induction 1 as [| a l l' _ IH | a b l | l l' l'' _ IH1 _ IH2]; cbn.
  - reflexivity.
  - now rewrite IH.
  - now destruct (f a), (f b).
  - congruence.
Qed.

Lemma get_classes_perm (labels labels' : list Z) (s s' : list nat)
    (classes : arraylike) :
  Permutation labels labels' ->
  get_classes (NDArray s (Ints labels)) classes =
  get_classes (NDArray s' (Ints labels')) classes.
Proof.
  intros HP. unfold get_classes, np_unique. cbn [elems].
  now rewrite (unique_permutation _ _ HP).
Qed.

(** X12. The verdict does not depend on the order of the labels: for a flat
    list of labels, [parcheck] returns the same result — the same success
    or the same error — on every reordering of the list, whatever the other
    arguments are. *)
Theorem parcheck_ignores_label_order
    (Q : arraylike) (ls ls' : list scalar) (factor_h factor_k : pyobj)
    (classes : arraylike) :
  Permutation ls ls' ->
  parcheck Q (flat_list ls) factor_h factor_k classes =
  parcheck Q (flat_list ls') factor_h factor_k classes.
Proof.
  intros HP.
  pose proof (infer_buffer_perm _ _ HP) as Hbuf.
  unfold parcheck, get_nparrays, try_except_type_value.
  rewrite !asanyarray_flat_list, <- (Permutation_length HP).
  destruct (isinstance_float_int factor_h); [|reflexivity].
  destruct (isinstance_float_int factor_k); [|reflexivity].
  cbn [negb].
  destruct (chained_le float_zero factor_h float_one) as [[] |];
    [| reflexivity ..].
  destruct (chained_le float_zero factor_k float_one) as [[] |];
    [| reflexivity ..].
  destruct (asanyarray_float64 Q) as [Q_arr | e]; [|reflexivity].
  cbn -[get_classes].
  destruct (ndim Q_arr =? 2)%nat; [|reflexivity]. cbn -[get_classes].
  destruct (shape_at Q_arr 0) as [n_samples | e]; [|reflexivity].
  cbn -[get_classes].
  destruct (n_samples =? length ls)%nat; [|reflexivity]. cbn -[get_classes].
  unfold dtype_of. cbn -[get_classes].
  destruct (infer_buffer ls) as [l | l | l | l],
           (infer_buffer ls') as [l' | l' | l' | l'];
    try contradiction; try reflexivity.
  cbn -[get_classes].
  rewrite <- (forallb_perm fits_int64 l l' Hbuf).
  destruct (forallb fits_int64 l); cbn -[get_classes];
    (destruct (shape_at Q_arr 1) as [n_features | e]; [|reflexivity]);
    cbn -[get_classes];
    now rewrite (get_classes_perm l l' [length ls] [length ls] classes Hbuf).
Qed.

Lemma parcheck_ignores_label_order_witness :
  parcheck (Q_of_shape 4 3)
    (flat_list [IntLeaf 0; IntLeaf 1])
    (PyInt 0) (PyInt 1) no_classes =
  parcheck (Q_of_shape 4 3)
    (flat_list [IntLeaf 1; IntLeaf 0])
    (PyInt 0) (PyInt 1) no_classes.
Proof.
  apply parcheck_ignores_label_order. apply perm_swap.
Defined.

(** ** Booleans among the labels *)

Lemma infer_buffer_integral (ls : list scalar) (values : list Z) :
  integral_labels ls -> traverse leaf_int ls = Some values ->
  infer_buffer ls = Ints values.
Proof.
  intros Hint Hv. apply infer_buffer_ints in Hint as [labels Hl].
  rewrite Hl. unfold infer_buffer in Hl.
  destruct ls as [| s ls]; [discriminate|].
  destruct (traverse leaf_bool (s :: ls)); [discriminate|].
  destruct (traverse leaf_int64 (s :: ls)) as [ns |] eqn:H64.
  { apply (traverse_weaken _ leaf_int _ _ leaf_int64_int) in H64.
    congruence. }
  destruct (traverse leaf_uint64 (s :: ls)) as [ns |] eqn:Hu64.
  { apply (traverse_weaken _ leaf_int _ _ leaf_uint64_int) in Hu64.
    congruence. }
  destruct (traverse leaf_float (s :: ls)); discriminate.
Qed.

(** X13. Booleans mixed with integers among the labels are read as the
    integers 0 and 1: with labels that NumPy stores in an integer array
    (Python integers, not all of them [bool], the [int]s all within the
    int64 range or all within the uint64 range beyond it) and no explicit
    classes, the call passes exactly when [Q] has as many columns as the
    labels have distinct integer values, [True] and 1 being the same label,
    and otherwise raises the [ValueError] of the class count. *)
Theorem boolean_labels_count_as_integers
    (Q y : arraylike) (factor_h factor_k : pyobj) (M N : nat)
    (values : list Z) :
  canonical factor_h -> canonical factor_k ->
  in_unit_interval factor_h -> in_unit_interval factor_k ->
  has_shape Q [M; N] -> Forall float_convertible (leaves Q) ->
  has_shape y [M] -> integral_labels (leaves y) ->
  traverse leaf_int (leaves y) = Some values ->
  parcheck Q y factor_h factor_k no_classes =
    if (N =? distinct_count values)%nat then Ok tt
    else Raise (class_count_error N (distinct_count values)).
Proof.
  intros Hch Hck Hh Hk HQ Hconv Hy Hint Hv.
  rewrite parcheck_factors_pass by auto using in_unit_interval_real.
  destruct (get_nparrays_well_formed Q y _ _ HQ Hconv Hy) as (xs & _ & Hn).
  apply (check_arrays_inferred _ _ _ _ M N values Hn eq_refl eq_refl).
  now apply infer_buffer_integral.
Qed.

Lemma boolean_labels_count_as_integers_witness :
  parcheck (Q_of_shape 2 1)
    (flat_list [BoolLeaf true; IntLeaf 1])
    (PyInt 0) (PyInt 1) no_classes = Ok tt.
Proof.
  refine (boolean_labels_count_as_integers (Q_of_shape 2 1)
            (flat_list [BoolLeaf true; IntLeaf 1])
            (PyInt 0) (PyInt 1) 2 1 [1; 1] I I _ _
            (has_shape_Q_of_shape 1 0) _ _ _ eq_refl).
  - apply int_in_unit_interval; lia.
  - apply int_in_unit_interval; lia.
  - repeat constructor.
  - apply discover_shape_spec. reflexivity.
  - split; [repeat constructor|]. split; [right; left; exact I|].
    left. repeat constructor.
Defined.
